(** * Evaluation ingestion: the admission path of the [ingest] edge function

    A shallow embedding of the request handler passed to [Deno.serve]
    (sampling gate, daily quota gate, insertion into [evaluations]) and of
    the two tables of the migration it reads and writes.

    The handler talks to three collaborators: the identity service
    ([auth.getUser]), the row store ([eval_configs], [evaluations]) and the
    runtime (clock, [Math.random], the request body).  Tables are part of
    the state; everything else a single call observes is gathered in [Env].
    Effects are recorded as a trace of events, in program order. *)

From Stdlib Require Import ZArith QArith Qround Qpower List String Bool Lia Lqa.
Import ListNotations.
Open Scope string_scope.
Open Scope Z_scope.

(** ** JSON values and the JavaScript operations the handler applies to them *)

(** A number is held as the decimal its JSON text writes, taken to be
    the one [JSON.stringify] writes for its binary64 value (the shortest
    that reads back as that value): parsing it and writing it again
    gives the same text.  A string is a sequence of characters of code
    below 256. *)
#[warnings="-register-all"]
Inductive json : Type :=
| JNull
| JBool (b : bool)
| JNum (q : Q)
| JStr (s : string)
| JArr (xs : list json)
| JObj (kvs : list (string * json)).

(** A JavaScript value read from a parsed body: [None] is [undefined]. *)
Definition jsval := option json.

Fixpoint assoc (k : string) (kvs : list (string * json)) : jsval :=
  match kvs with
  | [] => None
  | (k', v) :: rest => if (k' =? k)%string then Some v else assoc k rest
  end.

Record JsError := { message : string }.

(** [payload.k]: reading a property of [null] throws a TypeError; objects
    give the property or [undefined]; the other JSON values carry none of
    the property names the handler reads. *)
Definition get_prop (payload : json) (k : string) : JsError + jsval :=
  match payload with
  | JNull =>
      inl {| message :=
        "Cannot read properties of null (reading '" ++ k ++ "')" |}
  | JObj kvs => inr (assoc k kvs)
  | _ => inr None
  end.

Definition truthy (v : jsval) : bool :=
  match v with
  | None | Some JNull => false
  | Some (JBool b) => b
  | Some (JNum q) => negb (Qeq_bool q 0)
  | Some (JStr s) => negb (s =? EmptyString)%string
  | Some (JArr _) | Some (JObj _) => true
  end.

(** [v || d] *)
Definition js_or (v : jsval) (d : json) : jsval :=
  if truthy v then v else Some d.

(** [s.replace(pat, rep)] with a string pattern: first occurrence only. *)
Fixpoint replace (pat rep s : string) : string :=
  if String.prefix pat s
  then rep ++ String.substring (String.length pat)
                               (String.length s - String.length pat) s
  else match s with
       | EmptyString => EmptyString
       | String c s' => String c (replace pat rep s')
       end.

(** ** JavaScript numbers

    A number is a binary64 value; an arithmetic operation gives the
    binary64 number nearest to the exact result, ties going to the even
    significand.  Rationals stand for the finite numbers, and [infinity]
    ([2 ^ 1024]) for the result of an overflow. *)

Definition pow2 (e : Z) : Q := (2 ^ e)%Q.

(** For [0 < x], the [e] with [2 ^ e <= x < 2 ^ (e + 1)]. *)
Definition ilog2 (x : Q) : Z :=
  let e := Z.log2 (Qnum x) - Z.log2 (Z.pos (Qden x)) in
  if Qle_bool (pow2 e) x then e else e - 1.

Definition round_ties_even (x : Q) : Z :=
  let f := Qfloor x in
  match (x - inject_Z f ?= 1 # 2)%Q with
  | Lt => f
  | Gt => f + 1
  | Eq => if Z.even f then f else f + 1
  end.

(** The least exponent of a normal number; below it the spacing of the
    numbers stays [2 ^ (emin - 52)]. *)
Definition emin : Z := -1022.
Definition infinity : Q := pow2 1024.

(** The exponent of the binade [x] is rounded in. *)
Definition binade (x : Q) : Z := Z.max (ilog2 x) emin.

(** [x] rounded to a significand of 53 bits. *)
Definition rounded (x : Q) : Q :=
  (inject_Z (round_ties_even (x / pow2 (binade x - 52)))
   * pow2 (binade x - 52))%Q.

(** For [0 < x]. *)
Definition round64 (x : Q) : Q :=
  if Qle_bool infinity (rounded x) then infinity else rounded x.

Definition binary64 (x : Q) : Q :=
  match (x ?= 0)%Q with
  | Eq => 0%Q
  | Gt => round64 x
  | Lt => (- round64 (- x))%Q
  end.

(** What [Math.random()] returns: a binary64 number of [[0, 1)]. *)
Definition random_value (r : Q) : Prop :=
  (binary64 r == r /\ 0 <= r /\ r < 1)%Q.


(** ** The tables of the migration *)

Inductive RunPolicy := always | sampled.

Module EvalConfigs.
Record row := {
  id : string;
  user_id : string;
  run_policy : RunPolicy;
  sample_rate_pct : Z;
  obfuscate_pii : bool;
  max_eval_per_day : Z;
  created_at : Z;
  updated_at : Z
}.
End EvalConfigs.

(** Timestamps are instants in milliseconds since the epoch. [score] is
    nullable, [flags] and [pii_tokens_redacted] are nullable with a
    default. *)
Module Evaluations.
Record row := {
  id : string;
  user_id : string;
  interaction_id : string;
  prompt : string;
  response : string;
  score : option Q;
  latency_ms : Z;
  flags : option (list string);
  pii_tokens_redacted : option Z;
  created_at : Z
}.
End Evaluations.

Record Db := {
  eval_configs : list EvalConfigs.row;
  evaluations : list Evaluations.row
}.

(** The object literal handed to [.insert(...)]; a field that is
    [undefined] is left out of the request. *)
Record InsertObj := {
  i_user_id : string;
  i_interaction_id : jsval;
  i_prompt : jsval;
  i_response : jsval;
  i_score : jsval;
  i_latency_ms : jsval;
  i_flags : jsval;
  i_pii_tokens_redacted : jsval
}.

Inductive PgError :=
| NotNullViolation (column : string)
| CheckViolation (constraint : string)
| InvalidInput (column : string)
| OutOfRange (column : string)
| UniqueViolation (constraint : string)
| NotSingleRow
| IoFailure (msg : string).

(** [error.message], in outline: the store's own wording quotes the
    names and adds the relation. *)
Definition pg_message (e : PgError) : string :=
  match e with
  | NotNullViolation c =>
      "null value in column " ++ c ++ " violates not-null constraint"
  | CheckViolation c => "new row violates check constraint " ++ c
  | InvalidInput c => "invalid input syntax for column " ++ c
  | OutOfRange c => "value out of range for column " ++ c
  | UniqueViolation c =>
      "duplicate key value violates unique constraint " ++ c
  | NotSingleRow => "JSON object requested, multiple (or no) rows returned"
  | IoFailure m => m
  end.

(** What a query of the client resolves to: [{ data, error, count }]. *)
Record PostgrestResponse (A : Type) := {
  data : option A;
  error : option PgError;
  count : option Z
}.
Arguments data {A} _.
Arguments error {A} _.
Arguments count {A} _.

Definition pg_fail {A} (e : PgError) : PostgrestResponse A :=
  {| data := None; error := Some e; count := None |}.

Module Auth.
Record User := { id : string }.
Record UserResponse := {
  user : option User;
  error : option string
}.
End Auth.

(** ** What one call observes outside the tables *)

Record Env := {
  auth_getUser : string -> Auth.UserResponse;
  Math_random : Q;              (* the value [Math.random()] returns *)
  Date_now : Z;                 (* [new Date()], ms since the epoch *)
  tz_offset : Z;                (* local time = UTC + tz_offset, in ms *)
  pg_now : Z;                   (* [now()] of the store at insertion *)
  gen_random_uuid : string;     (* the store's default for [id] *)
  config_fault : option PgError;  (* the config read fails with ... *)
  count_fault : option PgError;   (* the count read fails with ... *)
  insert_fault : option PgError   (* the insertion fails with ... *)
}.

(** A value of [[0, 1)], for the draws computed in exact arithmetic. *)
Definition valid_draw (r : Q) : Prop := (0 <= r /\ r < 1)%Q.

(** ** Requests and responses *)

(** What [req.json()] does on the body: it throws, or gives a value. *)
Inductive RequestBody :=
| Unparsable (msg : string)
| Parsed (j : json).

Record Request := {
  method : string;
  authorization : option string;   (* [req.headers.get("Authorization")] *)
  body : RequestBody
}.

(** The object given to [JSON.stringify] for the response body. *)
Inductive Body :=
| body_error (msg : string)                      (* [{ error }] *)
| body_message (msg : string)                    (* [{ message }] *)
| body_success (evaluation : Evaluations.row).   (* [{ success: true, evaluation }] *)

Record Response := {
  status : Z;
  headers : list (string * string);
  payload_out : option Body
}.

Definition corsHeaders : list (string * string) :=
  [ ("Access-Control-Allow-Origin", "*");
    ("Access-Control-Allow-Headers",
     "authorization, x-client-info, apikey, content-type") ].

Definition json_response (st : Z) (b : Body) : Response :=
  {| status := st;
     headers := (corsHeaders ++ [("Content-Type", "application/json")])%list;
     payload_out := Some b |}.

(** ** Queries *)

Definition ms_per_day : Z := 86400000.

(** [today] after [setHours(0, 0, 0, 0)]: local midnight of the current
    day, for a zone at a fixed offset from UTC. *)
Definition today (env : Env) : Z :=
  Date_now env - (Date_now env + tz_offset env) mod ms_per_day.

(** [.from("eval_configs").select("*").eq("user_id", uid).single()] *)
Definition select_config (env : Env) (db : Db) (uid : string)
  : PostgrestResponse EvalConfigs.row :=
  match config_fault env with
  | Some e => pg_fail e
  | None =>
      match filter (fun c => (EvalConfigs.user_id c =? uid)%string)
                   (eval_configs db) with
      | [c] => {| data := Some c; error := None; count := None |}
      | _ => pg_fail NotSingleRow
      end
  end.

Definition counted (uid : string) (since : Z) (r : Evaluations.row) : bool :=
  (Evaluations.user_id r =? uid)%string && (since <=? Evaluations.created_at r).

(** [.from("evaluations").select("*", { count: "exact", head: true })
      .eq("user_id", uid).gte("created_at", since)] *)
Definition select_count (env : Env) (db : Db) (uid : string) (since : Z)
  : PostgrestResponse Evaluations.row :=
  match count_fault env with
  | Some e => pg_fail e
  | None =>
      {| data := None; error := None;
         count := Some (Z.of_nat
                   (List.length (filter (counted uid since)
                                        (evaluations db)))) |}
  end.

(** ** Insertion into [evaluations]

    The column types, defaults and constraints are those of the
    migration.  A JSON value is accepted for a column when it has the
    JSON type of that column (string for [TEXT], integral number for
    [INTEGER], number for [NUMERIC], array of strings for [TEXT[]]);
    the store's casts between types are not part of this model, which
    refuses a value of another JSON type. *)

Definition int4_min : Z := - 2 ^ 31.
Definition int4_max : Z := 2 ^ 31 - 1.

(** A [TEXT] value cannot hold the character of code 0. *)
Fixpoint has_nul (s : string) : bool :=
  match s with
  | EmptyString => false
  | String c s' => Ascii.eqb c Ascii.zero || has_nul s'
  end.

Definition col_text (c : string) (v : jsval) : PgError + string :=
  match v with
  | None | Some JNull => inl (NotNullViolation c)
  | Some (JStr s) => if has_nul s then inl (InvalidInput c) else inr s
  | Some _ => inl (InvalidInput c)
  end.

Definition json_int (c : string) (q : Q) : PgError + Z :=
  let q' := Qred q in
  if (Qden q' =? 1)%positive
  then if (int4_min <=? Qnum q') && (Qnum q' <=? int4_max)
       then inr (Qnum q')
       else inl (OutOfRange c)
  else inl (InvalidInput c).

(** [NUMERIC(3, 2)]: two decimals, rounded half away from zero, and less
    than 10 in absolute value. *)
Definition round2 (q : Q) : Z :=
  let n := Qnum q * 100 in
  let d := Z.pos (Qden q) in
  Z.sgn n * ((2 * Z.abs n + d) / (2 * d)).

Definition numeric_3_2 (c : string) (q : Q) : PgError + Q :=
  let h := round2 q in
  if Z.abs h <? 1000 then inr (Qred (h # 100)) else inl (OutOfRange c).

Fixpoint text_array (c : string) (xs : list json) : PgError + list string :=
  match xs with
  | [] => inr []
  | JStr s :: rest =>
      if has_nul s then inl (InvalidInput c)
      else match text_array c rest with
           | inr l => inr (s :: l)
           | inl e => inl e
           end
  | _ :: _ => inl (InvalidInput c)
  end.

(** [score NUMERIC(3, 2) CHECK (score >= 0 AND score <= 1)] *)
Definition col_score (v : jsval) : PgError + option Q :=
  match v with
  | None | Some JNull => inr None
  | Some (JNum q) =>
      match numeric_3_2 "score" q with
      | inr s =>
          if Qle_bool 0 s && Qle_bool s 1 then inr (Some s)
          else inl (CheckViolation "evaluations_score_check")
      | inl e => inl e
      end
  | Some _ => inl (InvalidInput "score")
  end.

(** [latency_ms INTEGER NOT NULL CHECK (latency_ms >= 0)] *)
Definition col_latency_ms (v : jsval) : PgError + Z :=
  match v with
  | None | Some JNull => inl (NotNullViolation "latency_ms")
  | Some (JNum q) =>
      match json_int "latency_ms" q with
      | inr n =>
          if 0 <=? n then inr n
          else inl (CheckViolation "evaluations_latency_ms_check")
      | inl e => inl e
      end
  | Some _ => inl (InvalidInput "latency_ms")
  end.

(** [flags TEXT[] DEFAULT '{}'] *)
Definition col_flags (v : jsval) : PgError + option (list string) :=
  match v with
  | None => inr (Some [])
  | Some JNull => inr None
  | Some (JArr xs) =>
      match text_array "flags" xs with
      | inr l => inr (Some l)
      | inl e => inl e
      end
  | Some _ => inl (InvalidInput "flags")
  end.

(** [pii_tokens_redacted INTEGER DEFAULT 0] *)
Definition col_pii_tokens_redacted (v : jsval) : PgError + option Z :=
  match v with
  | None => inr (Some 0)
  | Some JNull => inr None
  | Some (JNum q) =>
      match json_int "pii_tokens_redacted" q with
      | inr n => inr (Some n)
      | inl e => inl e
      end
  | Some _ => inl (InvalidInput "pii_tokens_redacted")
  end.

Definition bind_sum {E A B} (x : E + A) (f : A -> E + B) : E + B :=
  match x with
  | inl e => inl e
  | inr a => f a
  end.

Notation "'check' x <- c 'in' k" := (bind_sum c (fun x => k))
  (at level 10, x name, c at level 100, k at level 200).

(** The row the store builds for an insertion: [id] and [created_at] are
    absent from the request and take their defaults; [id] is the primary
    key. *)
Definition new_row (env : Env) (db : Db) (o : InsertObj)
  : PgError + Evaluations.row :=
  match insert_fault env with
  | Some e => inl e
  | None =>
      check interaction_id <- col_text "interaction_id" (i_interaction_id o) in
      check prompt <- col_text "prompt" (i_prompt o) in
      check response <- col_text "response" (i_response o) in
      check score <- col_score (i_score o) in
      check latency_ms <- col_latency_ms (i_latency_ms o) in
      check flags <- col_flags (i_flags o) in
      check pii <- col_pii_tokens_redacted (i_pii_tokens_redacted o) in
      if existsb (fun r => (Evaluations.id r =? gen_random_uuid env)%string)
                 (evaluations db)
      then inl (UniqueViolation "evaluations_pkey")
      else inr {| Evaluations.id := gen_random_uuid env;
                  Evaluations.user_id := i_user_id o;
                  Evaluations.interaction_id := interaction_id;
                  Evaluations.prompt := prompt;
                  Evaluations.response := response;
                  Evaluations.score := score;
                  Evaluations.latency_ms := latency_ms;
                  Evaluations.flags := flags;
                  Evaluations.pii_tokens_redacted := pii;
                  Evaluations.created_at := pg_now env |}
  end.

Definition append_evaluation (db : Db) (r : Evaluations.row) : Db :=
  {| eval_configs := eval_configs db;
     evaluations := (evaluations db ++ [r])%list |}.

(** [.from("evaluations").insert(o).select().single()] *)
Definition insert_evaluation (env : Env) (db : Db) (o : InsertObj)
  : PostgrestResponse Evaluations.row * Db :=
  match new_row env db o with
  | inl e => (pg_fail e, db)
  | inr r => ({| data := Some r; error := None; count := None |},
              append_evaluation db r)
  end.

(** ** The handler's effects

    A computation either falls through to the next statement, returns a
    response from the handler, or throws.  The state is the store and the
    trace of the calls made so far. *)

Inductive event :=
| ev_getUser (token : string)
| ev_select_config (uid : string)
| ev_Math_random
| ev_select_count (uid : string) (since : Z)
| ev_req_json
| ev_insert (o : InsertObj)
| ev_console_log (args : list string)
| ev_console_error (args : list string).

Record State := { st_db : Db; st_trace : list event }.

Inductive control (A : Type) :=
| Next (a : A)
| Return (r : Response)
| Throw (e : JsError).
Arguments Next {A} a.
Arguments Return {A} r.
Arguments Throw {A} e.

Definition M (A : Type) := State -> control A * State.

Definition ret {A} (a : A) : M A := fun s => (Next a, s).
Definition return_ {A} (r : Response) : M A := fun s => (Return r, s).
Definition throw {A} (e : JsError) : M A := fun s => (Throw e, s).

Definition bind {A B} (m : M A) (k : A -> M B) : M B :=
  fun s =>
    match m s with
    | (Next a, s') => k a s'
    | (Return r, s') => (Return r, s')
    | (Throw e, s') => (Throw e, s')
    end.

Declare Scope handler_scope.
Delimit Scope handler_scope with handler.
Notation "x <- m ;; k" := (bind m (fun x => k))
  (at level 61, m at next level, right associativity) : handler_scope.
Notation "m ;; k" := (bind m (fun _ => k))
  (at level 61, right associativity) : handler_scope.

Definition emit (e : event) : M unit :=
  fun s => (Next tt, {| st_db := st_db s;
                        st_trace := (st_trace s ++ [e])%list |}).

Definition when (b : bool) (m : M unit) : M unit :=
  if b then m else ret tt.

Definition getUser (env : Env) (token : string) : M Auth.UserResponse :=
  (emit (ev_getUser token) ;; ret (auth_getUser env token))%handler.

Definition from_eval_configs (env : Env) (uid : string)
  : M (PostgrestResponse EvalConfigs.row) :=
  (emit (ev_select_config uid) ;;
   fun s => (Next (select_config env (st_db s) uid), s))%handler.

Definition random (env : Env) : M Q :=
  (emit ev_Math_random ;; ret (Math_random env))%handler.

Definition from_evaluations_count (env : Env) (uid : string) (since : Z)
  : M (PostgrestResponse Evaluations.row) :=
  (emit (ev_select_count uid since) ;;
   fun s => (Next (select_count env (st_db s) uid since), s))%handler.

Definition req_json (req : Request) : M json :=
  (emit ev_req_json ;;
   match body req with
   | Unparsable msg => throw {| message := msg |}
   | Parsed j => ret j
   end)%handler.

Definition prop (payload : json) (k : string) : M jsval :=
  match get_prop payload k with
  | inl e => throw e
  | inr v => ret v
  end.

Definition from_evaluations_insert (env : Env) (o : InsertObj)
  : M (PostgrestResponse Evaluations.row) :=
  (emit (ev_insert o) ;;
   fun s => let (res, db') := insert_evaluation env (st_db s) o in
            (Next res, {| st_db := db'; st_trace := st_trace s |}))%handler.

Definition console_log (args : list string) : M unit :=
  emit (ev_console_log args).
Definition console_error (args : list string) : M unit :=
  emit (ev_console_error args).

(** ** The handler *)

(** [Math.random() * 100]: the product of two numbers is the binary64
    number nearest to the exact product. *)
Definition draw (r : Q) : Q := binary64 (r * 100).

(** [Math.random() * 100 < config.sample_rate_pct]; the rate is the number
    the row's JSON gives for the column. *)
Definition shouldProcess (r : Q) (sample_rate_pct : Z) : bool :=
  negb (Qle_bool (binary64 (inject_Z sample_rate_pct)) (draw r)).





(** [count !== null && count >= config.max_eval_per_day] *)
Definition limit_reached (count : option Z) (max_eval_per_day : Z) : bool :=
  match count with
  | None => false
  | Some n => max_eval_per_day <=? n
  end.

Definition header_present (h : option string) : bool :=
  match h with
  | None => false
  | Some s => negb (s =? EmptyString)%string
  end.

Definition header_value (h : option string) : string :=
  match h with
  | None => EmptyString
  | Some s => s
  end.

(** The body of the [try] block. *)
Definition try_block (env : Env) (req : Request) : M Response :=
  (let authHeader := authorization req in
   when (negb (header_present authHeader))
     (return_ (json_response 401
                 (body_error "Missing authorization header"))) ;;
   let token := replace "Bearer " EmptyString (header_value authHeader) in
   auth <- getUser env token ;;
   user <- match Auth.error auth, Auth.user auth with
           | None, Some u => ret u
           | _, _ => return_ (json_response 401 (body_error "Unauthorized"))
           end ;;
   cfg <- from_eval_configs env (Auth.id user) ;;
   config <- match data cfg with
             | Some c => ret c
             | None => return_ (json_response 400
                          (body_error "No evaluation config found"))
             end ;;
   match EvalConfigs.run_policy config with
   | sampled =>
       r <- random env ;;
       when (negb (shouldProcess r (EvalConfigs.sample_rate_pct config)))
         (console_log ["Evaluation skipped due to sampling"] ;;
          return_ (json_response 200
                     (body_message "Evaluation skipped due to sampling")))
   | always => ret tt
   end ;;
   cnt <- from_evaluations_count env (Auth.id user) (today env) ;;
   when (limit_reached (count cnt) (EvalConfigs.max_eval_per_day config))
     (return_ (json_response 429
                 (body_error "Daily evaluation limit reached"))) ;;
   payload <- req_json req ;;
   interaction_id <- prop payload "interaction_id" ;;
   prompt <- prop payload "prompt" ;;
   response <- prop payload "response" ;;
   score <- prop payload "score" ;;
   latency_ms <- prop payload "latency_ms" ;;
   flags <- prop payload "flags" ;;
   pii_tokens_redacted <- prop payload "pii_tokens_redacted" ;;
   ins <- from_evaluations_insert env
            {| i_user_id := Auth.id user;
               i_interaction_id := interaction_id;
               i_prompt := prompt;
               i_response := response;
               i_score := score;
               i_latency_ms := latency_ms;
               i_flags := js_or flags (JArr []);
               i_pii_tokens_redacted := js_or pii_tokens_redacted (JNum 0) |} ;;
   match error ins, data ins with
   | Some insertError, _ =>
       console_error ["Error inserting evaluation:"; pg_message insertError] ;;
       return_ (json_response 500 (body_error (pg_message insertError)))
   | None, Some evaluation =>
       console_log ["Evaluation ingested successfully:";
                    Evaluations.id evaluation] ;;
       ret (json_response 201 (body_success evaluation))
   | None, None =>
       throw {| message := "Cannot read properties of null (reading 'id')" |}
   end)%handler.

Record Result := {
  response : Response;
  store : Db;
  events : list event
}.

(** The handler given to [Deno.serve]: the preflight answer, then the
    [try] block with its [catch]. *)
Definition handler (env : Env) (db : Db) (req : Request) : Result :=
  if (method req =? "OPTIONS")%string
  then {| response := {| status := 200; headers := corsHeaders;
                         payload_out := None |};
          store := db; events := [] |}
  else
    match try_block env req {| st_db := db; st_trace := [] |} with
    | (Next r, s) | (Return r, s) =>
        {| response := r; store := st_db s; events := st_trace s |}
    | (Throw e, s) =>
        {| response := json_response 500 (body_error (message e));
           store := st_db s;
           events := (st_trace s
                      ++ [ev_console_error ["Unexpected error:"; message e]])%list |}
    end.

(** ** Which statement ends a call

    The conditions the handler tests, named, and for each way a call can
    end the result it produces. *)

Definition token_of (req : Request) : string :=
  replace "Bearer " EmptyString (header_value (authorization req)).

(** The call is not a preflight, carries a header, and the identity
    service resolves its token to [u]. *)
Definition authenticated (env : Env) (req : Request) (u : Auth.User) : Prop :=
  method req <> "OPTIONS" /\
  header_present (authorization req) = true /\
  Auth.error (auth_getUser env (token_of req)) = None /\
  Auth.user (auth_getUser env (token_of req)) = Some u.

Definition configured (env : Env) (db : Db) (u : Auth.User)
  (c : EvalConfigs.row) : Prop :=
  data (select_config env db (Auth.id u)) = Some c.

Definition passes_sampling (env : Env) (c : EvalConfigs.row) : bool :=
  match EvalConfigs.run_policy c with
  | always => true
  | sampled => shouldProcess (Math_random env) (EvalConfigs.sample_rate_pct c)
  end.

Definition count_today (env : Env) (db : Db) (u : Auth.User) : option Z :=
  count (select_count env db (Auth.id u) (today env)).

Definition sampling_events (c : EvalConfigs.row) : list event :=
  match EvalConfigs.run_policy c with
  | always => []
  | sampled => [ev_Math_random]
  end.

(** The calls made up to and including the count read. *)
Definition gate_events (env : Env) (req : Request) (u : Auth.User)
  (c : EvalConfigs.row) : list event :=
  ([ev_getUser (token_of req); ev_select_config (Auth.id u)]
   ++ sampling_events c
   ++ [ev_select_count (Auth.id u) (today env)])%list.

(** Every gate is passed: the call reaches [req.json()]. *)
Definition reaches_payload (env : Env) (db : Db) (req : Request)
  (u : Auth.User) (c : EvalConfigs.row) : Prop :=
  authenticated env req u /\ configured env db u c /\
  passes_sampling env c = true /\
  limit_reached (count_today env db u) (EvalConfigs.max_eval_per_day c) = false.

Definition field (payload : json) (k : string) : jsval :=
  match get_prop payload k with
  | inl _ => None
  | inr v => v
  end.

(** The object the handler inserts for an authenticated user and a
    payload other than [null]. *)
Definition insert_object (u : Auth.User) (payload : json) : InsertObj :=
  {| i_user_id := Auth.id u;
     i_interaction_id := field payload "interaction_id";
     i_prompt := field payload "prompt";
     i_response := field payload "response";
     i_score := field payload "score";
     i_latency_ms := field payload "latency_ms";
     i_flags := js_or (field payload "flags") (JArr []);
     i_pii_tokens_redacted :=
       js_or (field payload "pii_tokens_redacted") (JNum 0) |}.

(** What the call produces once the insertion has been attempted. *)
Definition after_insert (env : Env) (db : Db) (req : Request)
  (u : Auth.User) (c : EvalConfigs.row) (o : InsertObj) : Result :=
  match new_row env db o with
  | inl e =>
      {| response := json_response 500 (body_error (pg_message e));
         store := db;
         events := (gate_events env req u c
                    ++ [ev_req_json; ev_insert o;
                        ev_console_error ["Error inserting evaluation:";
                                          pg_message e]])%list |}
  | inr r =>
      {| response := json_response 201 (body_success r);
         store := append_evaluation db r;
         events := (gate_events env req u c
                    ++ [ev_req_json; ev_insert o;
                        ev_console_log ["Evaluation ingested successfully:";
                                        Evaluations.id r]])%list |}
  end.

(** The ways a call ends, each with the conditions that lead to it. *)
Inductive ends (env : Env) (db : Db) (req : Request) : Result -> Prop :=
| end_preflight :
    method req = "OPTIONS" ->
    ends env db req
      {| response := {| status := 200; headers := corsHeaders;
                        payload_out := None |};
         store := db; events := [] |}
| end_missing_header :
    method req <> "OPTIONS" ->
    header_present (authorization req) = false ->
    ends env db req
      {| response := json_response 401
                       (body_error "Missing authorization header");
         store := db; events := [] |}
| end_unauthorized :
    method req <> "OPTIONS" ->
    header_present (authorization req) = true ->
    Auth.error (auth_getUser env (token_of req)) <> None \/
    Auth.user (auth_getUser env (token_of req)) = None ->
    ends env db req
      {| response := json_response 401 (body_error "Unauthorized");
         store := db; events := [ev_getUser (token_of req)] |}
| end_no_config u :
    authenticated env req u ->
    data (select_config env db (Auth.id u)) = None ->
    ends env db req
      {| response := json_response 400
                       (body_error "No evaluation config found");
         store := db;
         events := [ev_getUser (token_of req);
                    ev_select_config (Auth.id u)] |}
| end_skipped u c :
    authenticated env req u ->
    configured env db u c ->
    EvalConfigs.run_policy c = sampled ->
    shouldProcess (Math_random env) (EvalConfigs.sample_rate_pct c) = false ->
    ends env db req
      {| response := json_response 200
                       (body_message "Evaluation skipped due to sampling");
         store := db;
         events := [ev_getUser (token_of req); ev_select_config (Auth.id u);
                    ev_Math_random;
                    ev_console_log ["Evaluation skipped due to sampling"]] |}
| end_quota u c :
    authenticated env req u ->
    configured env db u c ->
    passes_sampling env c = true ->
    limit_reached (count_today env db u)
                  (EvalConfigs.max_eval_per_day c) = true ->
    ends env db req
      {| response := json_response 429
                       (body_error "Daily evaluation limit reached");
         store := db;
         events := gate_events env req u c |}
| end_thrown u c msg :
    reaches_payload env db req u c ->
    body req = Unparsable msg \/
    (body req = Parsed JNull /\
     msg = "Cannot read properties of null (reading 'interaction_id')") ->
    ends env db req
      {| response := json_response 500 (body_error msg);
         store := db;
         events := (gate_events env req u c
                    ++ [ev_req_json;
                        ev_console_error ["Unexpected error:"; msg]])%list |}
| end_insert u c j :
    reaches_payload env db req u c ->
    body req = Parsed j ->
    j <> JNull ->
    ends env db req (after_insert env db req u c (insert_object u j)).

(** A request that differs by its body only, and a call that differs by
    the random draw only. *)
Definition with_body (req : Request) (b : RequestBody) : Request :=
  {| method := method req;
     authorization := authorization req;
     body := b |}.

Definition with_random (env : Env) (r : Q) : Env :=
  {| auth_getUser := auth_getUser env;
     Math_random := r;
     Date_now := Date_now env;
     tz_offset := tz_offset env;
     pg_now := pg_now env;
     gen_random_uuid := gen_random_uuid env;
     config_fault := config_fault env;
     count_fault := count_fault env;
     insert_fault := insert_fault env |}.

(** ** The quota window, as counted and as specified *)

(** The rows the count query selects. *)
Definition records_today (env : Env) (db : Db) (u : Auth.User)
  : list Evaluations.row :=
  filter (counted (Auth.id u) (today env)) (evaluations db).

(** The window of the specification: records of the user created in
    [[startOfToday, now)]. *)
Definition in_window (uid : string) (startOfToday now : Z)
  (r : Evaluations.row) : bool :=
  (Evaluations.user_id r =? uid)%string
  && (startOfToday <=? Evaluations.created_at r)
  && (Evaluations.created_at r <? now).

Definition countToday_spec (env : Env) (db : Db) (u : Auth.User) : Z :=
  Z.of_nat (List.length
    (filter (in_window (Auth.id u) (today env) (Date_now env))
            (evaluations db))).

(** Records of the user dated at or after the current instant. *)
Definition not_before_now (env : Env) (db : Db) (u : Auth.User)
  : list Evaluations.row :=
  filter (counted (Auth.id u) (Date_now env)) (evaluations db).

(** ** Sample data: one user, her policy, a day of records *)

Module Sample.

Definition alice : Auth.User := {| Auth.id := "6f1c-alice" |}.

Definition getUser (token : string) : Auth.UserResponse :=
  if (token =? "alice-jwt")%string
  then {| Auth.user := Some alice; Auth.error := None |}
  else {| Auth.user := None; Auth.error := Some "invalid JWT" |}.

(** Day 20000 since the epoch, 10:00 UTC. *)
Definition midnight : Z := 20000 * ms_per_day.
Definition ten_am : Z := midnight + 36000000.

Definition env : Env :=
  {| auth_getUser := getUser;
     Math_random := 1 # 2;
     Date_now := ten_am;
     tz_offset := 0;
     pg_now := ten_am + 40;
     gen_random_uuid := "e-new";
     config_fault := None;
     count_fault := None;
     insert_fault := None |}.

(** A later call, with another identifier drawn by the store. *)
Definition env_later : Env :=
  {| auth_getUser := getUser;
     Math_random := 1 # 2;
     Date_now := ten_am + 1000;
     tz_offset := 0;
     pg_now := ten_am + 1040;
     gen_random_uuid := "e-newer";
     config_fault := None;
     count_fault := None;
     insert_fault := None |}.

Definition env_last : Env :=
  {| auth_getUser := getUser;
     Math_random := 1 # 2;
     Date_now := ten_am + 2000;
     tz_offset := 0;
     pg_now := ten_am + 2040;
     gen_random_uuid := "e-newest";
     config_fault := None;
     count_fault := None;
     insert_fault := None |}.

Definition env_count_down : Env :=
  {| auth_getUser := getUser;
     Math_random := 1 # 2;
     Date_now := ten_am;
     tz_offset := 0;
     pg_now := ten_am + 40;
     gen_random_uuid := "e-new";
     config_fault := None;
     count_fault := Some (IoFailure "upstream connect error");
     insert_fault := None |}.

Definition env_config_down : Env :=
  {| auth_getUser := getUser;
     Math_random := 1 # 2;
     Date_now := ten_am;
     tz_offset := 0;
     pg_now := ten_am + 40;
     gen_random_uuid := "e-new";
     config_fault := Some (IoFailure "upstream connect error");
     count_fault := None;
     insert_fault := None |}.

Definition config (policy : RunPolicy) (pct max : Z) : EvalConfigs.row :=
  {| EvalConfigs.id := "c-alice";
     EvalConfigs.user_id := Auth.id alice;
     EvalConfigs.run_policy := policy;
     EvalConfigs.sample_rate_pct := pct;
     EvalConfigs.obfuscate_pii := false;
     EvalConfigs.max_eval_per_day := max;
     EvalConfigs.created_at := 0;
     EvalConfigs.updated_at := 0 |}.

Definition record (id : string) (at_ : Z) : Evaluations.row :=
  {| Evaluations.id := id;
     Evaluations.user_id := Auth.id alice;
     Evaluations.interaction_id := "int_42";
     Evaluations.prompt := "What is 2 + 2?";
     Evaluations.response := "4";
     Evaluations.score := Some (9 # 10);
     Evaluations.latency_ms := 120;
     Evaluations.flags := Some [];
     Evaluations.pii_tokens_redacted := Some 0;
     Evaluations.created_at := at_ |}.

Definition db (c : EvalConfigs.row) (rows : list Evaluations.row) : Db :=
  {| eval_configs := [c]; evaluations := rows |}.

Definition one_today : list Evaluations.row :=
  [record "e-0" (midnight - 5); record "e-1" (midnight + 7)].
(** One record of today and one dated an hour from now. *)
Definition one_later : list Evaluations.row :=
  [record "e-0" (midnight - 5); record "e-1" (midnight + 7);
   record "e-9" (ten_am + 3600000)].
Definition two_today : list Evaluations.row :=
  [record "e-0" (midnight - 5); record "e-1" (midnight + 7);
   record "e-2" (ten_am - 1)].

(** No score, flags or redaction count, and two fields the caller has
    no say in. *)
Definition payload : json :=
  JObj [("interaction_id", JStr "int_42");
        ("prompt", JStr "What is 2 + 2?");
        ("response", JStr "4");
        ("latency_ms", JNum 120);
        ("user_id", JStr "0000-mallory");
        ("created_at", JStr "1999-01-01T00:00:00Z")].

Definition req : Request :=
  {| method := "POST";
     authorization := Some "Bearer alice-jwt";
     body := Parsed payload |}.


(** The binary64 number nearest to 0.7. *)
Definition seven_tenths : Q := 6305039478318694 # 9007199254740992.

Definition req_garbled : Request :=
  with_body req (Unparsable "Unexpected token < in JSON at position 0").

End Sample.

(** ** Sequences of calls, and requests of the declared payload type *)

(** Calls served one after the other, each on the store the previous one
    left. *)
Fixpoint run (db : Db) (calls : list (Env * Request)) : Db :=
  match calls with
  | [] => db
  | (env, req) :: rest => run (store (handler env db req)) rest
  end.

Definition owned_by (uid : string) (r : Evaluations.row) : bool :=
  (Evaluations.user_id r =? uid)%string.

(** The number of records the count query gives for [uid] since [t]. *)
Definition count_since (uid : string) (t : Z) (db : Db) : Z :=
  Z.of_nat (List.length (filter (counted uid t) (evaluations db))).

(** [interface EvalPayload], with integers for the two counts. *)
Record EvalPayload := {
  p_interaction_id : string;
  p_prompt : string;
  p_response : string;
  p_score : option Q;
  p_latency_ms : Z;
  p_flags : option (list string);
  p_pii_tokens_redacted : option Z
}.

Definition optional (k : string) (v : option json)
  : list (string * json) :=
  match v with
  | Some j => [(k, j)]
  | None => []
  end.

(** The JSON object a client sends for a payload: optional fields that
    are not set are left out. *)
Definition payload_json (p : EvalPayload) : json :=
  JObj ([("interaction_id", JStr (p_interaction_id p));
         ("prompt", JStr (p_prompt p));
         ("response", JStr (p_response p))]
        ++ optional "score" (option_map JNum (p_score p))
        ++ [("latency_ms", JNum (inject_Z (p_latency_ms p)))]
        ++ optional "flags"
             (option_map (fun l => JArr (map JStr l)) (p_flags p))
        ++ optional "pii_tokens_redacted"
             (option_map (fun n => JNum (inject_Z n))
                         (p_pii_tokens_redacted p)))%list.

(** What a client can expect to find stored as sent: texts the store
    can hold, a score of [[0, 1]] written with two decimals, counts that
    fit the [INTEGER] columns. *)
Definition two_decimals_in_unit (s : Q) : Prop :=
  exists k, 0 <= k <= 100 /\ s = k # 100.

Record storable (p : EvalPayload) : Prop := {
  interaction_id_text : has_nul (p_interaction_id p) = false;
  prompt_text : has_nul (p_prompt p) = false;
  response_text : has_nul (p_response p) = false;
  score_two_decimals :
    forall s, p_score p = Some s -> two_decimals_in_unit s;
  latency_ms_int4 : 0 <= p_latency_ms p <= int4_max;
  flags_text :
    forall l f, p_flags p = Some l -> In f l -> has_nul f = false;
  pii_tokens_redacted_int4 :
    forall n, p_pii_tokens_redacted p = Some n -> int4_min <= n <= int4_max
}.

(** The row expected in the store for a payload. *)
Definition stored_row (env : Env) (u : Auth.User) (p : EvalPayload)
  : Evaluations.row :=
  {| Evaluations.id := gen_random_uuid env;
     Evaluations.user_id := Auth.id u;
     Evaluations.interaction_id := p_interaction_id p;
     Evaluations.prompt := p_prompt p;
     Evaluations.response := p_response p;
     Evaluations.score :=
       option_map (fun s => Qred (round2 s # 100)) (p_score p);
     Evaluations.latency_ms := p_latency_ms p;
     Evaluations.flags :=
       Some (match p_flags p with Some l => l | None => [] end);
     Evaluations.pii_tokens_redacted :=
       Some (match p_pii_tokens_redacted p with Some n => n | None => 0 end);
     Evaluations.created_at := pg_now env |}.

(** [pat] occurs in [s]. *)
Definition occurs (pat s : string) : Prop :=
  exists a b, s = a ++ pat ++ b.

Definition with_authorization (req : Request) (h : option string) : Request :=
  {| method := method req;
     authorization := h;
     body := body req |}.

(** [pat] occurs in [s], decided by a scan. *)
Fixpoint occursb (pat s : string) : bool :=
  String.prefix pat s
  || match s with
     | EmptyString => false
     | String _ s' => occursb pat s'
     end.

(** A property that is absent or [null]. *)
Definition missing (v : jsval) : bool :=
  match v with
  | None | Some JNull => true
  | Some _ => false
  end.

(** ** Account creation: the trigger of the migration *)

(** [CREATE TYPE app_role AS ENUM ('admin', 'user')] *)
Inductive app_role := role_admin | role_user.

Definition app_role_eqb (a b : app_role) : bool :=
  match a, b with
  | role_admin, role_admin | role_user, role_user => true
  | _, _ => false
  end.

Module Profiles.
Record row := {
  id : string;
  email : string;
  full_name : option string;
  created_at : Z;
  updated_at : Z
}.
End Profiles.

Module UserRoles.
Record row := {
  id : string;
  user_id : string;
  role : app_role
}.
End UserRoles.

(** The row of [auth.users] the trigger fires for: [new.id], [new.email]
    and [new.raw_user_meta_data->>'full_name']. *)
Module AuthUsers.
Record row := {
  id : string;
  email : option string;
  full_name : option string
}.
End AuthUsers.

Record Schema := {
  profiles : list Profiles.row;
  user_roles : list UserRoles.row;
  tables : Db
}.

(** What the store draws while the trigger runs: [now()] and the two
    identifiers [gen_random_uuid()] gives. *)
Record TriggerEnv := {
  trg_now : Z;
  config_uuid : string;
  role_uuid : string
}.

(** [has_role(_user_id, _role)] *)
Definition has_role (s : Schema) (_user_id : string) (_role : app_role)
  : bool :=
  existsb (fun r => (UserRoles.user_id r =? _user_id)%string
                    && app_role_eqb (UserRoles.role r) _role)
          (user_roles s).

(** The row [INSERT INTO eval_configs (user_id) VALUES (new.id)] gives,
    every other column at its default. *)
Definition default_config (e : TriggerEnv) (uid : string) : EvalConfigs.row :=
  {| EvalConfigs.id := config_uuid e;
     EvalConfigs.user_id := uid;
     EvalConfigs.run_policy := always;
     EvalConfigs.sample_rate_pct := 100;
     EvalConfigs.obfuscate_pii := false;
     EvalConfigs.max_eval_per_day := 10000;
     EvalConfigs.created_at := trg_now e;
     EvalConfigs.updated_at := trg_now e |}.

(** [handle_new_user()]: the three insertions, each under the
    constraints of its table; an error aborts the whole statement. *)
Definition handle_new_user (e : TriggerEnv) (s : Schema) (new : AuthUsers.row)
  : PgError + Schema :=
  match AuthUsers.email new with
  | None => inl (NotNullViolation "email")
  | Some email =>
      if existsb (fun p => (Profiles.id p =? AuthUsers.id new)%string)
                 (profiles s)
      then inl (UniqueViolation "profiles_pkey")
      else if existsb (fun c => (EvalConfigs.id c =? config_uuid e)%string)
                      (eval_configs (tables s))
      then inl (UniqueViolation "eval_configs_pkey")
      else if existsb (fun c => (EvalConfigs.user_id c
                                 =? AuthUsers.id new)%string)
                      (eval_configs (tables s))
      then inl (UniqueViolation "eval_configs_user_id_key")
      else if existsb (fun r => (UserRoles.id r =? role_uuid e)%string)
                      (user_roles s)
      then inl (UniqueViolation "user_roles_pkey")
      else if has_role s (AuthUsers.id new) role_user
      then inl (UniqueViolation "user_roles_user_id_role_key")
      else inr
        {| profiles :=
             (profiles s
              ++ [{| Profiles.id := AuthUsers.id new;
                     Profiles.email := email;
                     Profiles.full_name := AuthUsers.full_name new;
                     Profiles.created_at := trg_now e;
                     Profiles.updated_at := trg_now e |}])%list;
           user_roles :=
             (user_roles s
              ++ [{| UserRoles.id := role_uuid e;
                     UserRoles.user_id := AuthUsers.id new;
                     UserRoles.role := role_user |}])%list;
           tables :=
             {| eval_configs :=
                  (eval_configs (tables s)
                   ++ [default_config e (AuthUsers.id new)])%list;
                evaluations := evaluations (tables s) |} |}
  end.

Module SampleSignup.

Definition trigger_env : TriggerEnv :=
  {| trg_now := Sample.midnight;
     config_uuid := "c-alice";
     role_uuid := "r-alice" |}.

Definition empty : Schema :=
  {| profiles := []; user_roles := [];
     tables := {| eval_configs := []; evaluations := [] |} |}.

Definition new_alice : AuthUsers.row :=
  {| AuthUsers.id := "6f1c-alice";
     AuthUsers.email := Some "alice@example.org";
     AuthUsers.full_name := None |}.

(** The schema once alice has signed up. *)
Definition with_alice : Schema :=
  {| profiles :=
       [{| Profiles.id := "6f1c-alice";
           Profiles.email := "alice@example.org";
           Profiles.full_name := None;
           Profiles.created_at := Sample.midnight;
           Profiles.updated_at := Sample.midnight |}];
     user_roles :=
       [{| UserRoles.id := "r-alice";
           UserRoles.user_id := "6f1c-alice";
           UserRoles.role := role_user |}];
     tables :=
       {| eval_configs := [default_config trigger_env "6f1c-alice"];
          evaluations := [] |} |}.

End SampleSignup.

(** ** The data generators of the scripts

    Draws are the values [Math.random()] returns, in the order the
    calls are made; arithmetic is exact. *)

Definition Math_floor (x : Q) : Z := Qfloor x.

(** [Math.round]: to the nearest integer, halves upwards. *)
Definition Math_round (x : Q) : Z := Qfloor (x + (1 # 2)).

(** [r < bound] *)
Definition below (r bound : Q) : bool := negb (Qle_bool bound r).

(** [arr[Math.floor(Math.random() * arr.length)]] *)
Definition randomChoice {A} (arr : list A) (r : Q) : option A :=
  let i := Math_floor (r * inject_Z (Z.of_nat (List.length arr))) in
  if i <? 0 then None else nth_error arr (Z.to_nat i).

(** [randomDateWithin(days)], as an instant, for the clock at [now]. *)
Definition randomDateWithin (now : Z) (days : Z) (r : Q) : Z :=
  let delta := Math_floor (r * inject_Z days * 24 * 60 * 60 * 1000) in
  now - delta.

(** [Math.round(x * 100) / 100] *)
Definition two_decimals (x : Q) : Q :=
  (inject_Z (Math_round (x * 100)) / 100)%Q.

Definition getFlagsForScenario (scenario : string) : list (list string) :=
  if (scenario =? "stress-test")%string then
    [ []; ["high-confidence"]; ["needs-review"]; ["flagged-content"];
      ["low-quality"]; ["high-confidence"; "verified"];
      ["needs-review"; "flagged-content"];
      ["low-quality"; "needs-review"];
      ["flagged-content"; "low-quality"; "needs-review"] ]
  else if (scenario =? "edge-cases")%string then
    [ ["low-quality"]; ["needs-review"]; ["flagged-content"];
      ["low-quality"; "needs-review"];
      ["flagged-content"; "low-quality"] ]
  else if (scenario =? "performance-test")%string then
    [ []; ["high-confidence"]; ["high-confidence"; "verified"] ]
  else
    [ []; ["high-confidence"]; ["needs-review"]; ["flagged-content"];
      ["low-quality"]; ["high-confidence"; "verified"];
      ["needs-review"; "flagged-content"] ].

Definition generateScoreForScenario (scenario : string) (d1 d2 : Q) : Q :=
  if (scenario =? "stress-test")%string then
    two_decimals d1
  else if (scenario =? "edge-cases")%string then
    if below d1 (7 # 10)
    then two_decimals ((1 # 10) + d2 * (4 # 10))
    else two_decimals ((5 # 10) + d2 * (5 # 10))
  else if (scenario =? "performance-test")%string then
    two_decimals ((8 # 10) + d1 * (2 # 10))
  else
    if below d1 (7 # 10)
    then two_decimals ((7 # 10) + d2 * (3 # 10))
    else two_decimals ((3 # 10) + d2 * (4 # 10)).

Definition generateLatencyForScenario (scenario : string) (d1 d2 : Q) : Z :=
  if (scenario =? "stress-test")%string then
    Math_floor (d1 * 2000) + 10
  else if (scenario =? "edge-cases")%string then
    if below d1 (3 # 10)
    then Math_floor (d2 * 100) + 10
    else Math_floor (d2 * 5000) + 1000
  else if (scenario =? "performance-test")%string then
    Math_floor (d1 * 200) + 20
  else
    if below d1 (8 # 10)
    then 50 + Math_floor (d2 * 200)
    else 250 + Math_floor (d2 * 750).

Definition generatePIIForScenario (scenario : string) (d1 d2 : Q) : Z :=
  if (scenario =? "stress-test")%string then
    Math_floor (d1 * 15)
  else if (scenario =? "edge-cases")%string then
    if below d1 (3 # 10) then 0 else Math_floor (d2 * 20) + 1
  else if (scenario =? "performance-test")%string then
    Math_floor (d1 * 3)
  else
    if below d1 (6 # 10) then 0 else Math_floor (d2 * 8).

(** ** Bulk generation in batches *)

(** [Math.ceil(a / b)] for integers, [b] not 0 (with [b = 0] the
    quotient is infinite or not a number, a case the properties below
    leave out). *)
Definition ceil_div (a b : Z) : Z := - ((- a) / b).

(** What [auth.admin.listUsers({ page: 1, perPage: 1 })] resolves to:
    [{ data: { users }, error }], the users by their ids. *)
Record ListUsersResponse := {
  users : list string;
  listUsers_error : option string
}.

(** The user the records are generated for: the [userId] option when it
    is set, otherwise the first user the identity service lists. *)
Inductive Target :=
| target_error (error : string)     (* [listUsers] failed: thrown *)
| target_missing                    (* no user listed: logged, return *)
| target_user (targetUserId : string).

Definition targetUserId (userId : option string)
  (listUsers : ListUsersResponse) : Target :=
  let lookup :=
    match listUsers_error listUsers with
    | Some error => target_error error
    | None =>
        match users listUsers with
        | [] => target_missing
        | id :: _ => target_user id
        end
    end in
  match userId with
  | None => lookup
  | Some id => if (id =? EmptyString)%string then lookup else target_user id
  end.

Record BulkOutcome := {
  batches : list Z;          (* [currentBatchSize] of the batches inserted *)
  inserted : Z;              (* [totalInserted] when the loop ends *)
  failed_at : option Z       (* the batch whose insertion failed: thrown *)
}.

(** The loop of [generateBulkData], [fuel] turns of it, with
    [insert_ok i] telling whether the insertion of batch [i] succeeds. *)
Fixpoint bulk_loop (insert_ok : Z -> bool) (totalCount batchSize : Z)
  (fuel : nat) (batchIndex totalInserted : Z) : BulkOutcome :=
  match fuel with
  | O => {| batches := []; inserted := totalInserted; failed_at := None |}
  | S fuel' =>
      let remainingRecords := totalCount - totalInserted in
      let currentBatchSize := Z.min batchSize remainingRecords in
      if insert_ok batchIndex then
        let rest := bulk_loop insert_ok totalCount batchSize fuel'
                      (batchIndex + 1) (totalInserted + currentBatchSize) in
        {| batches := currentBatchSize :: batches rest;
           inserted := inserted rest;
           failed_at := failed_at rest |}
      else
        {| batches := []; inserted := totalInserted;
           failed_at := Some batchIndex |}
  end.

(** How a run of [generateBulkData] ends. *)
Inductive BulkRun :=
| lookup_thrown (error : string)
| no_users_found
| generated (targetUserId : string) (outcome : BulkOutcome).

Definition generateBulkData (userId : option string)
  (listUsers : ListUsersResponse) (insert_ok : Z -> bool)
  (totalCount batchSize : Z) : BulkRun :=
  match targetUserId userId listUsers with
  | target_error error => lookup_thrown error
  | target_missing => no_users_found
  | target_user id =>
      let totalBatches := ceil_div totalCount batchSize in
      generated id
        (bulk_loop insert_ok totalCount batchSize
                   (Z.to_nat totalBatches) 0 0)
  end.

(** [main] passes no [userId]; here one account exists. *)
Definition one_account : ListUsersResponse :=
  {| users := ["6f1c-alice"]; listUsers_error := None |}.

Definition sum (l : list Z) : Z := fold_right Z.add 0 l.

(** * Properties *)

(** ** Rounding to binary64 *)

Lemma pow2_pos e : (0 < pow2 e)%Q.
Proof. apply Qpower_0_lt. reflexivity. Qed.

Lemma pow2_add a b : (pow2 (a + b) == pow2 a * pow2 b)%Q.
Proof. apply Qpower_plus. discriminate. Qed.

Lemma pow2_succ a : (pow2 (a + 1) == 2 * pow2 a)%Q.
Proof. rewrite pow2_add. unfold pow2 at 2. rewrite Qpower_1_r. ring. Qed.

Lemma pow2_le a b : a <= b -> (pow2 a <= pow2 b)%Q.
Proof. intros H. apply Qpower_le_compat_l; [exact H | discriminate]. Qed.

Lemma pow2_lt a b : a < b -> (pow2 a < pow2 b)%Q.
Proof. intros H. apply Qpower_lt_compat_l; [exact H | reflexivity]. Qed.

Lemma pow2_Z n : 0 <= n -> (pow2 n == inject_Z (2 ^ n))%Q.
Proof. intros H. unfold pow2. now rewrite Zpower_Qpower. Qed.

Lemma ilog2_spec x :
  (0 < x)%Q -> (pow2 (ilog2 x) <= x /\ x < pow2 (ilog2 x + 1))%Q.
Proof.
  intros Hx. unfold ilog2.
  set (a := Z.log2 (Qnum x)). set (b := Z.log2 (Z.pos (Qden x))).
  assert (Hn : 0 < Qnum x).
  { destruct x as [n d]. unfold Qlt in Hx. simpl in *. lia. }
  destruct (Z.log2_spec (Qnum x) Hn) as [Ha1 Ha2]. fold a in Ha1, Ha2.
  destruct (Z.log2_spec (Z.pos (Qden x)) eq_refl) as [Hb1 Hb2].
  fold b in Hb1, Hb2.
  assert (Ha0 : 0 <= a) by apply Z.log2_nonneg.
  assert (Hb0 : 0 <= b) by apply Z.log2_nonneg.
  assert (HxD : (x * inject_Z (Z.pos (Qden x)) == inject_Z (Qnum x))%Q).
  { destruct x as [n d]. unfold Qeq, Qmult, inject_Z. simpl. lia. }
  assert (HA1 : (pow2 a <= inject_Z (Qnum x))%Q).
  { rewrite pow2_Z by exact Ha0. now rewrite <- Zle_Qle. }
  assert (HA2 : (inject_Z (Qnum x) < 2 * pow2 a)%Q).
  { rewrite <- pow2_succ, pow2_Z by lia. rewrite <- Zlt_Qlt.
    now rewrite <- Z.add_1_r in Ha2. }
  assert (HB1 : (pow2 b <= inject_Z (Z.pos (Qden x)))%Q).
  { rewrite pow2_Z by exact Hb0. now rewrite <- Zle_Qle. }
  assert (HB2 : (inject_Z (Z.pos (Qden x)) < 2 * pow2 b)%Q).
  { rewrite <- pow2_succ, pow2_Z by lia. rewrite <- Zlt_Qlt.
    now rewrite <- Z.add_1_r in Hb2. }
  assert (HE : (pow2 a == pow2 (a - b) * pow2 b)%Q).
  { rewrite <- pow2_add. now replace (a - b + b) with a by lia. }
  assert (HE' : (pow2 (a - b) == 2 * pow2 (a - b - 1))%Q).
  { rewrite <- pow2_succ. now replace (a - b - 1 + 1) with (a - b) by lia. }
  pose proof (pow2_pos b) as HBp. pose proof (pow2_pos (a - b - 1)) as HEp.
  generalize dependent (inject_Z (Qnum x)).
  generalize dependent (inject_Z (Z.pos (Qden x))).
  intros D HB1 HB2 N HxD HA1 HA2.
  destruct (Qle_bool (pow2 (a - b)) x) eqn:Hc.
  - apply Qle_bool_iff in Hc. split; [exact Hc|].
    rewrite pow2_succ.
    generalize dependent (pow2 (a - b)). generalize dependent (pow2 b).
    generalize dependent (pow2 a). intros. nra.
  - assert (Hlt : (x < pow2 (a - b))%Q).
    { apply Qnot_le_lt. intros H. apply Qle_bool_iff in H. congruence. }
    replace (a - b - 1 + 1) with (a - b) by lia. split; [|exact Hlt].
    generalize dependent (pow2 (a - b)). generalize dependent (pow2 b).
    generalize dependent (pow2 a). generalize dependent (pow2 (a - b - 1)).
    intros. nra.
Qed.

Lemma ilog2_mono x y : (0 < x)%Q -> (x <= y)%Q -> ilog2 x <= ilog2 y.
Proof.
  intros Hx Hxy.
  destruct (ilog2_spec x Hx) as [H1 _].
  destruct (ilog2_spec y) as [_ H2]; [lra|].
  destruct (Z_le_gt_dec (ilog2 x) (ilog2 y)) as [H|H]; [exact H|].
  assert (Hp : (pow2 (ilog2 y + 1) <= pow2 (ilog2 x))%Q)
    by (apply pow2_le; lia).
  lra.
Qed.

Ltac compared :=
  repeat match goal with
  | H : (_ ?= _)%Q = Eq |- _ => apply Qeq_alt in H
  | H : (_ ?= _)%Q = Lt |- _ => apply Qlt_alt in H
  | H : (_ ?= _)%Q = Gt |- _ => apply Qgt_alt in H
  end.

Lemma round_ties_even_floor x :
  Qfloor x <= round_ties_even x <= Qfloor x + 1.
Proof.
  unfold round_ties_even.
  destruct (x - inject_Z (Qfloor x) ?= 1 # 2)%Q; [destruct (Z.even _)| |]; lia.
Qed.

Lemma round_ties_even_mono x y :
  (x <= y)%Q -> round_ties_even x <= round_ties_even y.
Proof.
  intros Hxy. pose proof (Qfloor_resp_le x y Hxy) as Hf.
  destruct (Z.eq_dec (Qfloor x) (Qfloor y)) as [He|Hne].
  - unfold round_ties_even. rewrite <- He.
    destruct (x - inject_Z (Qfloor x) ?= 1 # 2)%Q eqn:Hx;
      destruct (y - inject_Z (Qfloor x) ?= 1 # 2)%Q eqn:Hy;
      try (destruct (Z.even (Qfloor x))); try lia; compared; lra.
  - pose proof (round_ties_even_floor x). pose proof (round_ties_even_floor y).
    lia.
Qed.

Lemma round_ties_even_Z n : round_ties_even (inject_Z n) = n.
Proof.
  unfold round_ties_even. rewrite Qfloor_Z.
  assert (H : (inject_Z n - inject_Z n ?= 1 # 2)%Q = Lt).
  { apply -> Qlt_alt. lra. }
  now rewrite H.
Qed.

Lemma round_ties_even_ge n x :
  (inject_Z n <= x)%Q -> n <= round_ties_even x.
Proof.
  intros H. rewrite <- (round_ties_even_Z n). now apply round_ties_even_mono.
Qed.

Lemma round_ties_even_le n x :
  (x <= inject_Z n)%Q -> round_ties_even x <= n.
Proof.
  intros H. rewrite <- (round_ties_even_Z n). now apply round_ties_even_mono.
Qed.

Lemma scaled x e :
  (x / pow2 (e - 52) * pow2 (e - 52) == x)%Q.
Proof. field. pose proof (pow2_pos (e - 52)). lra. Qed.

Lemma pow2_split e : (pow2 e == inject_Z (2 ^ 52) * pow2 (e - 52))%Q.
Proof.
  rewrite <- pow2_Z by lia. rewrite <- pow2_add.
  now replace (52 + (e - 52)) with e by lia.
Qed.

Lemma rounded_upper x :
  (0 < x)%Q -> (rounded x <= pow2 (binade x + 1))%Q.
Proof.
  intros Hx. unfold rounded. set (e := binade x).
  destruct (ilog2_spec x Hx) as [_ Hu].
  assert (He : (pow2 (ilog2 x + 1) <= pow2 (e + 1))%Q).
  { apply pow2_le. unfold e, binade. lia. }
  assert (Hs : (pow2 (e + 1) == inject_Z (2 ^ 53) * pow2 (e - 52))%Q).
  { rewrite <- pow2_Z by lia. rewrite <- pow2_add.
    now replace (53 + (e - 52)) with (e + 1) by lia. }
  pose proof (pow2_pos (e - 52)) as Hp. pose proof (scaled x e) as Hsc.
  assert (Hr : round_ties_even (x / pow2 (e - 52)) <= 2 ^ 53).
  { apply round_ties_even_le.
    generalize dependent (x / pow2 (e - 52))%Q.
    generalize dependent (pow2 (e + 1)). generalize dependent (pow2 (e - 52)).
    generalize dependent (pow2 (ilog2 x + 1)). intros. nra. }
  rewrite Hs. apply Qmult_le_compat_r; [|lra]. now rewrite <- Zle_Qle.
Qed.

Lemma rounded_lower x :
  (0 < x)%Q -> emin <= ilog2 x -> (pow2 (binade x) <= rounded x)%Q.
Proof.
  intros Hx Hmin. unfold rounded.
  assert (Hb : binade x = ilog2 x) by (unfold binade; lia).
  rewrite Hb. set (e := ilog2 x).
  destruct (ilog2_spec x Hx) as [Hl _]. fold e in Hl.
  pose proof (pow2_split e) as Hs.
  pose proof (pow2_pos (e - 52)) as Hp. pose proof (scaled x e) as Hsc.
  assert (Hr : 2 ^ 52 <= round_ties_even (x / pow2 (e - 52))).
  { apply round_ties_even_ge.
    generalize dependent (x / pow2 (e - 52))%Q.
    generalize dependent (pow2 e). generalize dependent (pow2 (e - 52)).
    intros. nra. }
  rewrite Hs. apply Qmult_le_compat_r; [|lra]. now rewrite <- Zle_Qle.
Qed.

Lemma rounded_nonneg x : (0 < x)%Q -> (0 <= rounded x)%Q.
Proof.
  intros Hx. unfold rounded.
  pose proof (pow2_pos (binade x - 52)) as Hp.
  apply Qmult_le_0_compat; [|lra].
  change 0%Q with (inject_Z 0). rewrite <- Zle_Qle.
  apply round_ties_even_ge. change (inject_Z 0) with 0%Q.
  apply Qlt_le_weak, Qlt_shift_div_l; [exact Hp|lra].
Qed.

Lemma rounded_mono x y :
  (0 < x)%Q -> (x <= y)%Q -> (rounded x <= rounded y)%Q.
Proof.
  intros Hx Hxy. assert (Hy : (0 < y)%Q) by lra.
  pose proof (ilog2_mono x y Hx Hxy) as Hl.
  destruct (Z.eq_dec (binade x) (binade y)) as [He|Hne].
  - unfold rounded. rewrite He.
    pose proof (pow2_pos (binade y - 52)) as Hp.
    apply Qmult_le_compat_r; [|lra]. rewrite <- Zle_Qle.
    apply round_ties_even_mono.
    apply Qmult_le_compat_r; [exact Hxy|].
    apply Qlt_le_weak, Qinv_lt_0_compat, Hp.
  - assert (Hlt : binade x < binade y) by (unfold binade in *; lia).
    assert (Hmin : emin <= ilog2 y) by (unfold binade in *; lia).
    pose proof (rounded_upper x Hx) as Hu.
    pose proof (rounded_lower y Hy Hmin) as Hlo.
    assert (Hp : (pow2 (binade x + 1) <= pow2 (binade y))%Q)
      by (apply pow2_le; lia).
    lra.
Qed.

Lemma round64_nonneg x : (0 < x)%Q -> (0 <= round64 x)%Q.
Proof.
  intros Hx. unfold round64.
  destruct (Qle_bool infinity (rounded x)).
  - apply Qlt_le_weak, pow2_pos.
  - now apply rounded_nonneg.
Qed.

Lemma round64_mono x y :
  (0 < x)%Q -> (x <= y)%Q -> (round64 x <= round64 y)%Q.
Proof.
  intros Hx Hxy. pose proof (rounded_mono x y Hx Hxy) as Hr.
  unfold round64.
  destruct (Qle_bool infinity (rounded x)) eqn:Ex;
    destruct (Qle_bool infinity (rounded y)) eqn:Ey.
  - lra.
  - apply Qle_bool_iff in Ex.
    assert (H : (infinity <= rounded y)%Q) by lra.
    apply Qle_bool_iff in H. congruence.
  - apply Qlt_le_weak, Qnot_le_lt. intros H.
    apply Qle_bool_iff in H. congruence.
  - exact Hr.
Qed.

Lemma binary64_mono x y : (x <= y)%Q -> (binary64 x <= binary64 y)%Q.
Proof.
  intros Hxy. unfold binary64.
  destruct (x ?= 0)%Q eqn:Ex; destruct (y ?= 0)%Q eqn:Ey;
    compared; try lra.
  - now apply round64_nonneg.
  - assert (H : (0 <= round64 (- x))%Q) by (apply round64_nonneg; lra). lra.
  - assert (H : (round64 (- y) <= round64 (- x))%Q)
      by (apply round64_mono; lra).
    lra.
  - assert (H : (0 <= round64 (- x))%Q) by (apply round64_nonneg; lra).
    assert (H' : (0 <= round64 y)%Q) by (apply round64_nonneg; lra). lra.
  - now apply round64_mono.
Qed.








Ltac run_handler :=
  cbv [try_block bind when ret return_ throw emit getUser from_eval_configs
       random from_evaluations_count req_json prop from_evaluations_insert
       console_log console_error st_db st_trace app negb].

Lemma not_preflight (req : Request) :
  method req <> "OPTIONS" -> (method req =? "OPTIONS")%string = false.
Proof. intros H. now apply String.eqb_neq. Qed.

Lemma ends_missing_header env db req :
  method req <> "OPTIONS" ->
  header_present (authorization req) = false ->
  handler env db req =
  {| response := json_response 401 (body_error "Missing authorization header");
     store := db; events := [] |}.
Proof.
  intros Hm Hh. unfold handler. rewrite (not_preflight _ Hm).
  run_handler. rewrite Hh. reflexivity.
Qed.

Lemma ends_unauthorized env db req :
  method req <> "OPTIONS" ->
  header_present (authorization req) = true ->
  Auth.error (auth_getUser env (token_of req)) <> None \/
  Auth.user (auth_getUser env (token_of req)) = None ->
  handler env db req =
  {| response := json_response 401 (body_error "Unauthorized");
     store := db; events := [ev_getUser (token_of req)] |}.
Proof.
  intros Hm Hh Hu. unfold handler. rewrite (not_preflight _ Hm).
  run_handler. rewrite Hh. fold (token_of req).
  destruct (Auth.error (auth_getUser env (token_of req))) as [e|];
    [reflexivity|].
  destruct Hu as [Hu|Hu]; [congruence|]. rewrite Hu. reflexivity.
Qed.

Ltac enter_as Ha :=
  let Hm := fresh "Hm" in
  let Hh := fresh "Hh" in
  let He := fresh "He" in
  let Hu := fresh "Hu" in
  destruct Ha as (Hm & Hh & He & Hu);
  unfold handler; rewrite (not_preflight _ Hm);
  run_handler; rewrite Hh;
  match goal with
  | |- context [replace _ _ (header_value (authorization ?r))] =>
      fold (token_of r)
  end;
  rewrite He, Hu;
  cbv beta iota zeta.

Lemma ends_no_config env db req u :
  authenticated env req u ->
  data (select_config env db (Auth.id u)) = None ->
  handler env db req =
  {| response := json_response 400 (body_error "No evaluation config found");
     store := db;
     events := [ev_getUser (token_of req); ev_select_config (Auth.id u)] |}.
Proof.
  intros Ha Hc. enter_as Ha. rewrite Hc. reflexivity.
Qed.

Lemma ends_skipped env db req u c :
  authenticated env req u ->
  configured env db u c ->
  EvalConfigs.run_policy c = sampled ->
  shouldProcess (Math_random env) (EvalConfigs.sample_rate_pct c) = false ->
  handler env db req =
  {| response := json_response 200
                   (body_message "Evaluation skipped due to sampling");
     store := db;
     events := [ev_getUser (token_of req); ev_select_config (Auth.id u);
                ev_Math_random;
                ev_console_log ["Evaluation skipped due to sampling"]] |}.
Proof.
  intros Ha Hc Hp Hs. enter_as Ha. unfold configured in Hc.
  rewrite Hc, Hp. cbv beta iota zeta. rewrite Hs. reflexivity.
Qed.

Lemma ends_quota env db req u c :
  authenticated env req u ->
  configured env db u c ->
  passes_sampling env c = true ->
  limit_reached (count_today env db u) (EvalConfigs.max_eval_per_day c) = true ->
  handler env db req =
  {| response := json_response 429
                   (body_error "Daily evaluation limit reached");
     store := db;
     events := gate_events env req u c |}.
Proof.
  intros Ha Hc Hs Hq. enter_as Ha. unfold configured in Hc.
  unfold count_today in Hq. unfold gate_events, sampling_events.
  unfold passes_sampling in Hs. rewrite Hc.
  destruct (EvalConfigs.run_policy c); cbv beta iota zeta;
    [|rewrite Hs]; cbv beta iota zeta; rewrite Hq; reflexivity.
Qed.

Lemma ends_unparsable env db req u c msg :
  reaches_payload env db req u c ->
  body req = Unparsable msg ->
  handler env db req =
  {| response := json_response 500 (body_error msg);
     store := db;
     events := (gate_events env req u c
                ++ [ev_req_json;
                    ev_console_error ["Unexpected error:"; msg]])%list |}.
Proof.
  intros (Ha & Hc & Hs & Hq) Hb. enter_as Ha. unfold configured in Hc.
  unfold count_today in Hq. unfold gate_events, sampling_events.
  unfold passes_sampling in Hs. rewrite Hc.
  destruct (EvalConfigs.run_policy c); cbv beta iota zeta;
    [|rewrite Hs]; cbv beta iota zeta; rewrite Hq, Hb; reflexivity.
Qed.

Lemma ends_null_payload env db req u c :
  reaches_payload env db req u c ->
  body req = Parsed JNull ->
  handler env db req =
  {| response := json_response 500 (body_error
       "Cannot read properties of null (reading 'interaction_id')");
     store := db;
     events := (gate_events env req u c
                ++ [ev_req_json;
                    ev_console_error ["Unexpected error:";
       "Cannot read properties of null (reading 'interaction_id')"]])%list |}.
Proof.
  intros (Ha & Hc & Hs & Hq) Hb. enter_as Ha. unfold configured in Hc.
  unfold count_today in Hq. unfold gate_events, sampling_events.
  unfold passes_sampling in Hs. rewrite Hc.
  destruct (EvalConfigs.run_policy c); cbv beta iota zeta;
    [|rewrite Hs]; cbv beta iota zeta; rewrite Hq, Hb; reflexivity.
Qed.

Lemma ends_after_insert env db req u c j :
  reaches_payload env db req u c ->
  body req = Parsed j ->
  j <> JNull ->
  handler env db req = after_insert env db req u c (insert_object u j).
Proof.
  intros (Ha & Hc & Hs & Hq) Hb Hj. enter_as Ha. unfold configured in Hc.
  unfold count_today in Hq.
  unfold after_insert, gate_events, sampling_events, insert_evaluation.
  unfold passes_sampling in Hs. rewrite Hc.
  assert (Hf : forall k, get_prop j k = inr (field j k)).
  { intros k. unfold field. destruct j; try reflexivity. congruence. }
  destruct (EvalConfigs.run_policy c); cbv beta iota zeta;
    [|rewrite Hs]; cbv beta iota zeta; rewrite Hq, Hb; cbv beta iota zeta;
    rewrite !Hf; cbv beta iota zeta; fold (insert_object u j);
    destruct (new_row env db (insert_object u j)); reflexivity.
Qed.

Lemma ends_preflight env db req :
  method req = "OPTIONS" ->
  handler env db req =
  {| response := {| status := 200; headers := corsHeaders;
                    payload_out := None |};
     store := db; events := [] |}.
Proof.
  intros Hm. unfold handler. rewrite Hm. reflexivity.
Qed.

Lemma json_null_dec (j : json) : {j = JNull} + {j <> JNull}.
Proof. destruct j; (now left) || (right; discriminate). Qed.

(** Every call ends in one of these ways. *)
Lemma handler_ends env db req : ends env db req (handler env db req).
Proof.
  destruct (String.eqb_spec (method req) "OPTIONS") as [Hm|Hm].
  { rewrite ends_preflight by assumption. now constructor. }
  destruct (header_present (authorization req)) eqn:Hh.
  2:{ rewrite ends_missing_header by assumption. now constructor. }
  destruct (Auth.error (auth_getUser env (token_of req))) as [e|] eqn:He.
  { rewrite ends_unauthorized; try assumption.
    - apply end_unauthorized; try assumption. left. congruence.
    - left. congruence. }
  destruct (Auth.user (auth_getUser env (token_of req))) as [u|] eqn:Hu.
  2:{ rewrite ends_unauthorized; try assumption.
      - apply end_unauthorized; try assumption. now right.
      - now right. }
  assert (Ha : authenticated env req u) by (repeat split; assumption).
  destruct (data (select_config env db (Auth.id u))) as [c|] eqn:Hc.
  2:{ rewrite (ends_no_config env db req u) by assumption.
      now apply end_no_config. }
  destruct (passes_sampling env c) eqn:Hs.
  2:{ unfold passes_sampling in Hs.
      destruct (EvalConfigs.run_policy c) eqn:Hp; [discriminate|].
      rewrite (ends_skipped env db req u c) by assumption.
      now apply (end_skipped env db req u c). }
  destruct (limit_reached (count_today env db u)
              (EvalConfigs.max_eval_per_day c)) eqn:Hq.
  { rewrite (ends_quota env db req u c) by assumption.
    now apply end_quota. }
  assert (Hr : reaches_payload env db req u c) by (repeat split; assumption).
  destruct (body req) as [msg|j] eqn:Hb.
  { rewrite (ends_unparsable env db req u c msg) by assumption.
    apply end_thrown; [assumption|now left]. }
  destruct (json_null_dec j) as [->|Hj].
  { rewrite (ends_null_payload env db req u c) by assumption.
    apply end_thrown; [assumption|now right]. }
  rewrite (ends_after_insert env db req u c j) by assumption.
  now apply end_insert.
Qed.

(** ** Facts shared by the properties below *)

Ltac project :=
  cbn [response store events status payload_out json_response].

(** Closed facts about the sample data are settled by evaluation. *)
Ltac evaluate :=
  vm_compute; repeat split; (discriminate || reflexivity).



Lemma shouldProcess_spec (r : Q) (pct : Z) :
  shouldProcess r pct = true <-> (draw r < binary64 (inject_Z pct))%Q.
Proof.
  unfold shouldProcess. rewrite negb_true_iff. split.
  - intros H. apply Qnot_le_lt. intros Hle.
    apply Qle_bool_iff in Hle. congruence.
  - intros H.
    destruct (Qle_bool (binary64 (inject_Z pct)) (draw r)) eqn:E; [|easy].
    apply Qle_bool_iff in E. exfalso. exact (Qlt_not_le _ _ H E).
Qed.




Lemma random_value_valid (r : Q) : random_value r -> valid_draw r.
Proof. intros (_ & H0 & H1). now split. Qed.


Lemma today_le_now env : today env <= Date_now env.
Proof.
  unfold today.
  pose proof (Z.mod_pos_bound (Date_now env + tz_offset env) ms_per_day).
  unfold ms_per_day in *. lia.
Qed.

Lemma count_today_records env db u :
  count_fault env = None ->
  count_today env db u = Some (Z.of_nat (List.length (records_today env db u))).
Proof.
  intros H. unfold count_today, select_count. rewrite H. reflexivity.
Qed.

Lemma gate_events_spec env req u c e :
  In e (gate_events env req u c) ->
  e = ev_getUser (token_of req) \/ e = ev_select_config (Auth.id u) \/
  (e = ev_Math_random /\ EvalConfigs.run_policy c = sampled) \/
  e = ev_select_count (Auth.id u) (today env).
Proof.
  unfold gate_events, sampling_events.
  destruct (EvalConfigs.run_policy c); simpl; intuition (subst; auto).
Qed.

(** Past the sampling gate a call ends at the quota gate, on a throw, or
    after the insertion. *)
Lemma past_sampling env db req u c :
  authenticated env req u ->
  configured env db u c ->
  passes_sampling env c = true ->
  (limit_reached (count_today env db u)
                 (EvalConfigs.max_eval_per_day c) = true /\
   handler env db req =
   {| response := json_response 429
                    (body_error "Daily evaluation limit reached");
      store := db; events := gate_events env req u c |}) \/
  (reaches_payload env db req u c /\
   ((exists msg,
       handler env db req =
       {| response := json_response 500 (body_error msg);
          store := db;
          events := (gate_events env req u c
                     ++ [ev_req_json;
                         ev_console_error ["Unexpected error:"; msg]])%list |})
    \/
    (exists j, body req = Parsed j /\ j <> JNull /\
       handler env db req =
       after_insert env db req u c (insert_object u j)))).
Proof.
  intros Ha Hc Hs.
  destruct (limit_reached (count_today env db u)
              (EvalConfigs.max_eval_per_day c)) eqn:Hq.
  { left. split; [reflexivity|]. now apply ends_quota. }
  right.
  assert (Hr : reaches_payload env db req u c)
    by exact (conj Ha (conj Hc (conj Hs Hq))).
  split; [assumption|].
  destruct (body req) as [msg|j] eqn:Hb.
  { left. exists msg. now apply ends_unparsable. }
  destruct (json_null_dec j) as [->|Hj].
  { left. eexists. now apply ends_null_payload. }
  right. exists j. repeat split; try assumption.
  now apply ends_after_insert.
Qed.

(** ** The model at work *)

Example bearer_prefix_removed :
  token_of Sample.req = "alice-jwt".
Proof. reflexivity. Qed.

Example start_of_today :
  today Sample.env = Sample.midnight.
Proof. reflexivity. Qed.

(** A limit of two and an empty day: three submissions in a row are
    answered 201, 201 and 429, and two rows are stored. *)
Example three_submissions :
  let db0 := Sample.db (Sample.config always 100 2) [] in
  let r1 := handler Sample.env db0 Sample.req in
  let r2 := handler Sample.env_later (store r1) Sample.req in
  let r3 := handler Sample.env_last (store r2) Sample.req in
  (status (response r1), status (response r2), status (response r3))
    = (201, 201, 429) /\
  List.length (evaluations (store r3)) = 2%nat.
Proof. vm_compute. split; reflexivity. Qed.

(** The product is rounded before it is compared: for the binary64
    number nearest to 0.7 the exact product lies below 70, the product
    the handler compares is 70, and at rate 70 the call is skipped. *)
Example product_is_rounded :
  random_value Sample.seven_tenths /\
  (Sample.seven_tenths * 100 < 70)%Q /\
  (draw Sample.seven_tenths == 70)%Q /\
  shouldProcess Sample.seven_tenths 70 = false.
Proof. vm_compute. repeat split; discriminate. Qed.

(** A payload of [null] throws on the first property read; a payload
    that is not an object has no field and is refused by the store. *)
Example null_payload :
  response (handler Sample.env (Sample.db (Sample.config always 100 2) [])
              (with_body Sample.req (Parsed JNull)))
  = json_response 500 (body_error
      "Cannot read properties of null (reading 'interaction_id')").
Proof. vm_compute. reflexivity. Qed.

Example number_payload :
  status (response
    (handler Sample.env (Sample.db (Sample.config always 100 2) [])
       (with_body Sample.req (Parsed (JNum 3))))) = 500.
Proof. vm_compute. reflexivity. Qed.

(** ** C1: the quota boundary *)

(** C1. With [max_eval_per_day = K]: when exactly [K] records are counted
    for today, an authenticated, configured call that gets past the
    sampling gate is answered 429 "Daily evaluation limit reached", the
    store is unchanged and no insertion is attempted; when exactly
    [K - 1] are counted, the call passes the quota gate (it reads the
    body) and, if the store accepts the row, is answered 201 with that
    row, which is appended to the store. *)
Theorem quota_boundary env db req u c K :
  authenticated env req u ->
  configured env db u c ->
  EvalConfigs.max_eval_per_day c = K ->
  passes_sampling env c = true ->
  count_fault env = None ->
  (Z.of_nat (List.length (records_today env db u)) = K ->
   response (handler env db req) =
     json_response 429 (body_error "Daily evaluation limit reached") /\
   store (handler env db req) = db /\
   (forall o, ~ In (ev_insert o) (events (handler env db req))))
  /\
  (Z.of_nat (List.length (records_today env db u)) = K - 1 ->
   In ev_req_json (events (handler env db req)) /\
   status (response (handler env db req)) <> 429 /\
   (forall j r,
      body req = Parsed j -> j <> JNull ->
      new_row env db (insert_object u j) = inr r ->
      response (handler env db req) = json_response 201 (body_success r) /\
      store (handler env db req) = append_evaluation db r)).
Proof.
  intros Ha Hc HK Hs Hf. split; intros Hn.
  - assert (Hq : limit_reached (count_today env db u)
                   (EvalConfigs.max_eval_per_day c) = true).
    { rewrite (count_today_records _ _ _ Hf), Hn, HK. simpl.
      apply Z.leb_refl. }
    rewrite (ends_quota env db req u c) by assumption. project.
    split; [reflexivity|split; [reflexivity|]].
    intros o Ho. apply gate_events_spec in Ho.
    destruct Ho as [Ho|[Ho|[[Ho _]|Ho]]]; discriminate.
  - assert (Hq : limit_reached (count_today env db u)
                   (EvalConfigs.max_eval_per_day c) = false).
    { rewrite (count_today_records _ _ _ Hf), Hn, HK. simpl.
      apply Z.leb_gt. lia. }
    destruct (past_sampling env db req u c Ha Hc Hs)
      as [[Hq' _]|[Hr [[msg E]|(j & Hb & Hj & E)]]]; [congruence| |].
    + rewrite E. project. split; [|split].
      * apply in_or_app. right. now left.
      * discriminate.
      * intros j r Hb Hj Hrow.
        rewrite (ends_after_insert env db req u c j) in E by assumption.
        unfold after_insert in E. rewrite Hrow in E. discriminate.
    + rewrite E. unfold after_insert.
      destruct (new_row env db (insert_object u j)) as [e|r] eqn:Hrow;
        project; (split; [|split]);
        try (apply in_or_app; right; now left); try discriminate;
        intros j' r' Hb' Hj' Hrow'; rewrite Hb in Hb';
        injection Hb' as <-; rewrite Hrow in Hrow'; try discriminate;
        injection Hrow' as <-; split; reflexivity.
Qed.

Lemma quota_boundary_witness :
  (response (handler Sample.env
     (Sample.db (Sample.config always 100 2) Sample.two_today) Sample.req)
   = json_response 429 (body_error "Daily evaluation limit reached")) /\
  (status (response (handler Sample.env
     (Sample.db (Sample.config always 100 2) Sample.one_today) Sample.req))
   = 201).
Proof.
  assert (Ha : authenticated Sample.env Sample.req Sample.alice)
    by evaluate.
  split.
  - assert (Hc : configured Sample.env
             (Sample.db (Sample.config always 100 2) Sample.two_today)
             Sample.alice (Sample.config always 100 2)) by evaluate.
    assert (Hs : passes_sampling Sample.env (Sample.config always 100 2)
                 = true) by evaluate.
    assert (Hn : Z.of_nat (List.length (records_today Sample.env
                   (Sample.db (Sample.config always 100 2) Sample.two_today)
                   Sample.alice)) = 2) by evaluate.
    exact (proj1 (proj1 (quota_boundary _ _ _ _ _ 2 Ha Hc eq_refl Hs eq_refl)
                    Hn)).
  - assert (Hc : configured Sample.env
             (Sample.db (Sample.config always 100 2) Sample.one_today)
             Sample.alice (Sample.config always 100 2)) by evaluate.
    assert (Hs : passes_sampling Sample.env (Sample.config always 100 2)
                 = true) by evaluate.
    assert (Hn : Z.of_nat (List.length (records_today Sample.env
                   (Sample.db (Sample.config always 100 2) Sample.one_today)
                   Sample.alice)) = 2 - 1) by evaluate.
    destruct (new_row Sample.env
                (Sample.db (Sample.config always 100 2) Sample.one_today)
                (insert_object Sample.alice Sample.payload)) as [e|r] eqn:E;
      [vm_compute in E; discriminate|].
    assert (Hj : Sample.payload <> JNull) by discriminate.
    destruct (proj2 (proj2 (proj2
                (quota_boundary _ _ _ _ _ 2 Ha Hc eq_refl Hs eq_refl) Hn))
                Sample.payload r eq_refl Hj E) as [-> _].
    reflexivity.
Defined.

(** ** C2: the sampling gate *)








(** ** C3: a skipped call changes nothing *)



(** ** C4: the record an accepted call persists *)

(** The row the store builds: [user_id] is the one of the request, [id]
    and [created_at] are the store's, the other columns are the request's
    values read at their column types. *)
Lemma new_row_columns env db o r :
  new_row env db o = inr r ->
  Evaluations.id r = gen_random_uuid env /\
  Evaluations.user_id r = i_user_id o /\
  Evaluations.created_at r = pg_now env /\
  col_text "interaction_id" (i_interaction_id o)
    = inr (Evaluations.interaction_id r) /\
  col_score (i_score o) = inr (Evaluations.score r) /\
  col_flags (i_flags o) = inr (Evaluations.flags r) /\
  col_pii_tokens_redacted (i_pii_tokens_redacted o)
    = inr (Evaluations.pii_tokens_redacted r) /\
  existsb (fun r' => (Evaluations.id r' =? gen_random_uuid env)%string)
          (evaluations db) = false.
Proof.
  unfold new_row, bind_sum.
  destruct (insert_fault env); [discriminate|].
  destruct (col_text "interaction_id" (i_interaction_id o)); [discriminate|].
  destruct (col_text "prompt" (i_prompt o)); [discriminate|].
  destruct (col_text "response" (i_response o)); [discriminate|].
  destruct (col_score (i_score o)); [discriminate|].
  destruct (col_latency_ms (i_latency_ms o)); [discriminate|].
  destruct (col_flags (i_flags o)); [discriminate|].
  destruct (col_pii_tokens_redacted (i_pii_tokens_redacted o));
    [discriminate|].
  destruct (existsb _ (evaluations db)); [discriminate|].
  intros H. injection H as <-. cbn. repeat split; reflexivity.
Qed.



(** ** C5: the window of the daily count *)

Lemma window_split uid start now rows :
  start <= now ->
  List.length (filter (counted uid start) rows)
  = (List.length (filter (in_window uid start now) rows)
     + List.length (filter (counted uid now) rows))%nat.
Proof.
  intros Hle. induction rows as [|r rows IH]; [reflexivity|].
  cbn [filter].
  destruct (counted uid start r) eqn:E1,
           (in_window uid start now r) eqn:E2,
           (counted uid now r) eqn:E3;
    cbn [List.length]; rewrite ?IH; try lia; exfalso;
    unfold counted, in_window in *;
    destruct (Evaluations.user_id r =? uid)%string; cbn [andb] in *;
    try discriminate;
    destruct (Z.leb_spec start (Evaluations.created_at r));
    destruct (Z.ltb_spec (Evaluations.created_at r) now);
    destruct (Z.leb_spec now (Evaluations.created_at r));
    try discriminate; lia.
Qed.

(** C5, as the code has it. The count query selects the records of the
    user created at or after the start of today, with no upper bound:
    the count is the number of records in [[startOfToday, now)] plus the
    number of records of the user dated at or after the current instant.
    The two counts agree exactly when the user has no such record. *)
Theorem count_today_window env db u :
  count_fault env = None ->
  count_today env db u
    = Some (countToday_spec env db u
            + Z.of_nat (List.length (not_before_now env db u)))
  /\
  (count_today env db u = Some (countToday_spec env db u)
   <-> not_before_now env db u = []).
Proof.
  intros Hf. rewrite (count_today_records _ _ _ Hf).
  unfold records_today, countToday_spec, not_before_now.
  rewrite (window_split (Auth.id u) (today env) (Date_now env))
    by apply today_le_now.
  rewrite Nat2Z.inj_add. split; [reflexivity|].
  destruct (filter (counted (Auth.id u) (Date_now env)) (evaluations db))
    as [|r rest].
  - cbn [List.length]. rewrite Z.add_0_r. tauto.
  - split; [|discriminate]. intros H. injection H as H.
    cbn [List.length] in H. lia.
Qed.

Lemma count_today_window_witness :
  count_today Sample.env
    (Sample.db (Sample.config always 100 2) Sample.one_later) Sample.alice
  = Some (1 + 1).
Proof.
  assert (Hw : countToday_spec Sample.env
                 (Sample.db (Sample.config always 100 2) Sample.one_later)
                 Sample.alice
               + Z.of_nat (List.length (not_before_now Sample.env
                   (Sample.db (Sample.config always 100 2) Sample.one_later)
                   Sample.alice)) = 1 + 1) by evaluate.
  rewrite <- Hw.
  exact (proj1 (count_today_window Sample.env
                  (Sample.db (Sample.config always 100 2) Sample.one_later)
                  Sample.alice eq_refl)).
Defined.

(** C5, as stated, fails: a record dated an hour from now is counted,
    although it lies outside [[startOfToday, now)]. *)
Lemma count_today_counts_later_records :
  count_fault Sample.env = None /\
  count_today Sample.env
    (Sample.db (Sample.config always 100 2) Sample.one_later) Sample.alice
  = Some 2 /\
  countToday_spec Sample.env
    (Sample.db (Sample.config always 100 2) Sample.one_later) Sample.alice
  = 1 /\
  count_today Sample.env
    (Sample.db (Sample.config always 100 2) Sample.one_later) Sample.alice
  <> Some (countToday_spec Sample.env
             (Sample.db (Sample.config always 100 2) Sample.one_later)
             Sample.alice).
Proof.
  split; [reflexivity|]. split; [evaluate|]. split; [evaluate|].
  vm_compute. discriminate.
Qed.

(** ** C6: a failed count read *)

Lemma count_fault_null env db u e :
  count_fault env = Some e -> count_today env db u = None.
Proof.
  intros H. unfold count_today, select_count. now rewrite H.
Qed.

(** C6, as the code has it. A count, when there is one, is never
    negative.  When the count read fails the handler has no count
    ([count] is [null]) and the error is dropped: the quota comparison is
    skipped, whatever the number of records of the day, the call goes on
    to read the body, is never answered 429, and is answered 201 with the
    new row if the store accepts it. *)
Theorem count_failure_skips_quota_gate :
  (forall env db u n, count_today env db u = Some n -> 0 <= n)
  /\
  (forall env db req u c e,
     authenticated env req u ->
     configured env db u c ->
     passes_sampling env c = true ->
     count_fault env = Some e ->
     count_today env db u = None /\
     reaches_payload env db req u c /\
     In ev_req_json (events (handler env db req)) /\
     status (response (handler env db req)) <> 429 /\
     (forall j r,
        body req = Parsed j -> j <> JNull ->
        new_row env db (insert_object u j) = inr r ->
        response (handler env db req)
          = json_response 201 (body_success r) /\
        store (handler env db req) = append_evaluation db r)).
Proof.
  split.
  - intros env db u n. unfold count_today, select_count.
    destruct (count_fault env); [discriminate|]. cbn [count].
    intros H. injection H as <-. apply Nat2Z.is_nonneg.
  - intros env db req u c e Ha Hc Hs Hf.
    pose proof (count_fault_null env db u e Hf) as Hn.
    assert (Hr : reaches_payload env db req u c).
    { refine (conj Ha (conj Hc (conj Hs _))). now rewrite Hn. }
    split; [exact Hn|]. split; [exact Hr|].
    destruct (past_sampling env db req u c Ha Hc Hs)
      as [[Hq _]|[_ [[msg E]|(j & Hb & Hj & E)]]].
    + rewrite Hn in Hq. discriminate.
    + rewrite E. project. split; [|split].
      * apply in_or_app. right. now left.
      * discriminate.
      * intros j r Hb Hj Hrow.
        rewrite (ends_after_insert env db req u c j) in E by assumption.
        unfold after_insert in E. rewrite Hrow in E. discriminate.
    + rewrite E. unfold after_insert.
      destruct (new_row env db (insert_object u j)) as [e'|r] eqn:Hrow;
        project; (split; [|split]);
        try (apply in_or_app; right; now left); try discriminate;
        intros j' r' Hb' Hj' Hrow'; rewrite Hb in Hb';
        injection Hb' as <-; rewrite Hrow in Hrow'; try discriminate;
        injection Hrow' as <-; split; reflexivity.
Qed.

Lemma count_failure_skips_quota_gate_witness :
  status (response (handler Sample.env_count_down
            (Sample.db (Sample.config always 100 2) Sample.two_today)
            Sample.req_garbled)) <> 429.
Proof.
  assert (Ha : authenticated Sample.env_count_down Sample.req_garbled
                 Sample.alice) by evaluate.
  assert (Hc : configured Sample.env_count_down
             (Sample.db (Sample.config always 100 2) Sample.two_today)
             Sample.alice (Sample.config always 100 2)) by evaluate.
  assert (Hs : passes_sampling Sample.env_count_down
                 (Sample.config always 100 2) = true) by evaluate.
  exact (proj1 (proj2 (proj2 (proj2
           (proj2 count_failure_skips_quota_gate _ _ _ _ _ _
              Ha Hc Hs eq_refl))))).
Defined.

(** C6, as stated, fails: the count read fails for a user who already
    has her two records of the day, and the call is answered 201 with a
    third record persisted; the failure is not reported. *)
Lemma count_failure_not_surfaced :
  count_fault Sample.env_count_down
    = Some (IoFailure "upstream connect error") /\
  EvalConfigs.max_eval_per_day (Sample.config always 100 2) = 2 /\
  List.length (records_today Sample.env_count_down
                 (Sample.db (Sample.config always 100 2) Sample.two_today)
                 Sample.alice) = 2%nat /\
  status (response (handler Sample.env_count_down
            (Sample.db (Sample.config always 100 2) Sample.two_today)
            Sample.req)) = 201 /\
  List.length (evaluations (store (handler Sample.env_count_down
            (Sample.db (Sample.config always 100 2) Sample.two_today)
            Sample.req))) = 4%nat.
Proof.
  split; [reflexivity|]. split; [reflexivity|].
  split; [evaluate|]. split; evaluate.
Qed.

(** ** C7: the answers *)




(** ** C8: the same payload twice *)

Lemma counted_later uid s1 s2 r :
  s1 <= s2 -> counted uid s2 r = true -> counted uid s1 r = true.
Proof.
  unfold counted. intros Hle H. apply andb_true_iff in H as [H1 H2].
  rewrite H1. cbn [andb]. apply Z.leb_le in H2. apply Z.leb_le. lia.
Qed.

Lemma filter_length_le {A} (f g : A -> bool) (l : list A) :
  (forall x, f x = true -> g x = true) ->
  (List.length (filter f l) <= List.length (filter g l))%nat.
Proof.
  intros Hfg. induction l as [|x l IH]; [apply le_n|].
  cbn [filter]. destruct (f x) eqn:Hf.
  - rewrite (Hfg x Hf). cbn [List.length]. lia.
  - destruct (g x); cbn [List.length]; lia.
Qed.

Lemma below_limit env db u max n :
  (count_fault env = None ->
   Z.of_nat (List.length (records_today env db u)) <= n) ->
  n < max ->
  limit_reached (count_today env db u) max = false.
Proof.
  intros Hn Hlt. unfold count_today, select_count.
  destruct (count_fault env); [reflexivity|]. cbn [count limit_reached].
  specialize (Hn eq_refl). unfold records_today in Hn.
  apply Z.leb_gt. lia.
Qed.

(** A second insertion of the same object is not refused because of the
    first: the table has no constraint on [interaction_id]. *)
Lemma new_row_again env1 env2 db o r1 :
  new_row env1 db o = inr r1 ->
  insert_fault env2 = None ->
  existsb (fun r => (Evaluations.id r =? gen_random_uuid env2)%string)
          (evaluations db) = false ->
  gen_random_uuid env2 <> gen_random_uuid env1 ->
  exists r2,
    new_row env2 (append_evaluation db r1) o = inr r2 /\
    Evaluations.id r2 = gen_random_uuid env2 /\
    Evaluations.interaction_id r2 = Evaluations.interaction_id r1.
Proof.
  intros H1 Hf Hfresh Hne.
  pose proof (new_row_columns _ _ _ _ H1) as (Hid & _).
  revert H1. unfold new_row, bind_sum. rewrite Hf.
  destruct (insert_fault env1); [discriminate|].
  destruct (col_text "interaction_id" (i_interaction_id o)); [discriminate|].
  destruct (col_text "prompt" (i_prompt o)); [discriminate|].
  destruct (col_text "response" (i_response o)); [discriminate|].
  destruct (col_score (i_score o)); [discriminate|].
  destruct (col_latency_ms (i_latency_ms o)); [discriminate|].
  destruct (col_flags (i_flags o)); [discriminate|].
  destruct (col_pii_tokens_redacted (i_pii_tokens_redacted o));
    [discriminate|].
  destruct (existsb (fun r => (Evaluations.id r
                               =? gen_random_uuid env1)%string)
                    (evaluations db)); [discriminate|].
  intros H. injection H as H.
  cbn [append_evaluation evaluations]. rewrite existsb_app, Hfresh.
  cbn [existsb orb]. rewrite Hid.
  destruct (String.eqb_spec (gen_random_uuid env1) (gen_random_uuid env2))
    as [E|_]; [congruence|].
  eexists. split; [reflexivity|]. subst r1. cbn. split; reflexivity.
Qed.

(** C8. Under the [always] policy, with room for two more records
    today, sending the same request twice gives two 201 answers and two
    rows in the store, with different [id]s and the same
    [interaction_id]: nothing compares the payload with earlier rows.
    (The store accepts the first row, and draws for the second an
    identifier not in use.) *)
Theorem no_deduplication env1 env2 db req u c j r1 :
  authenticated env1 req u -> authenticated env2 req u ->
  configured env1 db u c -> configured env2 db u c ->
  EvalConfigs.run_policy c = always ->
  today env1 <= today env2 ->
  Z.of_nat (List.length (records_today env1 db u)) + 2
    <= EvalConfigs.max_eval_per_day c ->
  body req = Parsed j -> j <> JNull ->
  new_row env1 db (insert_object u j) = inr r1 ->
  insert_fault env2 = None ->
  existsb (fun r => (Evaluations.id r =? gen_random_uuid env2)%string)
          (evaluations db) = false ->
  gen_random_uuid env2 <> gen_random_uuid env1 ->
  exists r2,
    response (handler env1 db req) = json_response 201 (body_success r1) /\
    response (handler env2 (store (handler env1 db req)) req)
      = json_response 201 (body_success r2) /\
    evaluations (store (handler env2 (store (handler env1 db req)) req))
      = (evaluations db ++ [r1; r2])%list /\
    Evaluations.id r1 <> Evaluations.id r2 /\
    r1 <> r2 /\
    Evaluations.interaction_id r1 = Evaluations.interaction_id r2.
Proof.
  intros Ha1 Ha2 Hc1 Hc2 Hp Hday Hroom Hb Hj Hrow1 Hf2 Hfresh Hne.
  assert (Hs : forall env, passes_sampling env c = true).
  { intros env. unfold passes_sampling. now rewrite Hp. }
  assert (Hq1 : limit_reached (count_today env1 db u)
                  (EvalConfigs.max_eval_per_day c) = false).
  { apply below_limit
      with (n := Z.of_nat (List.length (records_today env1 db u)));
      [intros _|]; lia. }
  assert (E1 : handler env1 db req
               = after_insert env1 db req u c (insert_object u j)).
  { apply ends_after_insert; try assumption.
    exact (conj Ha1 (conj Hc1 (conj (Hs env1) Hq1))). }
  unfold after_insert in E1. rewrite Hrow1 in E1.
  destruct (new_row_again env1 env2 db _ r1 Hrow1 Hf2 Hfresh Hne)
    as (r2 & Hrow2 & Hid2 & Hint).
  assert (Hq2 : limit_reached
                  (count_today env2 (append_evaluation db r1) u)
                  (EvalConfigs.max_eval_per_day c) = false).
  { apply below_limit
      with (n := Z.of_nat (List.length (records_today env1 db u)) + 1);
      [intros _|lia].
    unfold records_today. cbn [append_evaluation evaluations].
    rewrite filter_app, length_app.
    pose proof (filter_length_le (counted (Auth.id u) (today env2))
                  (counted (Auth.id u) (today env1)) (evaluations db)
                  (fun r => counted_later _ _ _ r Hday)) as Hle.
    assert (List.length (filter (counted (Auth.id u) (today env2)) [r1])
            <= 1)%nat.
    { cbn [filter]. destruct (counted _ _ r1); cbn [List.length]; lia. }
    lia. }
  assert (E2 : handler env2 (append_evaluation db r1) req
               = after_insert env2 (append_evaluation db r1) req u c
                   (insert_object u j)).
  { apply ends_after_insert; try assumption.
    exact (conj Ha2 (conj Hc2 (conj (Hs env2) Hq2))). }
  unfold after_insert in E2. rewrite Hrow2 in E2.
  pose proof (new_row_columns _ _ _ _ Hrow1) as (Hid1 & _).
  exists r2. rewrite E1. project. rewrite E2. project.
  split; [reflexivity|]. split; [reflexivity|].
  split.
  { cbn [append_evaluation evaluations]. now rewrite <- app_assoc. }
  assert (Hids : Evaluations.id r1 <> Evaluations.id r2) by congruence.
  split; [exact Hids|]. split; [congruence|]. now symmetry.
Qed.

Lemma no_deduplication_witness :
  exists r1 r2,
    evaluations (store (handler Sample.env_later
      (store (handler Sample.env
                (Sample.db (Sample.config always 100 5) Sample.one_today)
                Sample.req))
      Sample.req))
    = (Sample.one_today ++ [r1; r2])%list /\
    Evaluations.id r1 <> Evaluations.id r2 /\
    Evaluations.interaction_id r1 = Evaluations.interaction_id r2.
Proof.
  destruct (new_row Sample.env
              (Sample.db (Sample.config always 100 5) Sample.one_today)
              (insert_object Sample.alice Sample.payload))
    as [e|r1] eqn:Hrow; [vm_compute in Hrow; discriminate|].
  assert (Ha1 : authenticated Sample.env Sample.req Sample.alice)
    by evaluate.
  assert (Ha2 : authenticated Sample.env_later Sample.req Sample.alice)
    by evaluate.
  assert (Hc1 : configured Sample.env
             (Sample.db (Sample.config always 100 5) Sample.one_today)
             Sample.alice (Sample.config always 100 5)) by evaluate.
  assert (Hc2 : configured Sample.env_later
             (Sample.db (Sample.config always 100 5) Sample.one_today)
             Sample.alice (Sample.config always 100 5)) by evaluate.
  assert (Hday : today Sample.env <= today Sample.env_later)
    by (vm_compute; discriminate).
  assert (Hroom : Z.of_nat (List.length (records_today Sample.env
                    (Sample.db (Sample.config always 100 5) Sample.one_today)
                    Sample.alice)) + 2
                  <= EvalConfigs.max_eval_per_day
                       (Sample.config always 100 5))
    by (vm_compute; discriminate).
  assert (Hj : Sample.payload <> JNull) by discriminate.
  assert (Hfresh :
    existsb (fun r => (Evaluations.id r
                       =? gen_random_uuid Sample.env_later)%string)
      (evaluations (Sample.db (Sample.config always 100 5)
                      Sample.one_today)) = false) by evaluate.
  assert (Hne : gen_random_uuid Sample.env_later
                <> gen_random_uuid Sample.env) by discriminate.
  destruct (no_deduplication Sample.env Sample.env_later
              (Sample.db (Sample.config always 100 5) Sample.one_today)
              Sample.req Sample.alice (Sample.config always 100 5)
              Sample.payload r1 Ha1 Ha2 Hc1 Hc2 eq_refl Hday Hroom
              eq_refl Hj Hrow eq_refl Hfresh Hne)
    as (r2 & _ & _ & Hst & Hid & _ & Hint).
  exists r1, r2. split; [exact Hst|]. split; [exact Hid|exact Hint].
Defined.

(** ** C9: the body is read last *)

(** C9. The body is read only once every gate is passed.  A call
    answered 401, 400, 200 or 429 made no [req.json()] call, and the same
    call with any other body gives the same result; so an unparsable body
    is answered 200 when the sampled policy skips it and 429 when the
    limit is reached.  Past the gates, an unparsable body is answered 500
    with the parser's message, and nothing is written. *)
Theorem payload_read_after_gates :
  (forall env db req b,
     In (status (response (handler env db req))) [401; 400; 200; 429] ->
     ~ In ev_req_json (events (handler env db req)) /\
     handler env db (with_body req b) = handler env db req)
  /\
  (forall env db req u c msg,
     authenticated env req u -> configured env db u c ->
     EvalConfigs.run_policy c = sampled ->
     shouldProcess (Math_random env) (EvalConfigs.sample_rate_pct c) = false ->
     body req = Unparsable msg ->
     status (response (handler env db req)) = 200)
  /\
  (forall env db req u c msg,
     authenticated env req u -> configured env db u c ->
     passes_sampling env c = true ->
     limit_reached (count_today env db u)
                   (EvalConfigs.max_eval_per_day c) = true ->
     body req = Unparsable msg ->
     status (response (handler env db req)) = 429)
  /\
  (forall env db req u c msg,
     reaches_payload env db req u c ->
     body req = Unparsable msg ->
     response (handler env db req) = json_response 500 (body_error msg) /\
     store (handler env db req) = db).
Proof.
  split; [|split; [|split]].
  - intros env db req b Hst.
    destruct (handler_ends env db req)
      as [Hm|Hm Hh|Hm Hh Hu|u Ha Hc|u c Ha Hc Hr Hs|u c Ha Hc Hs Hq
          |u c msg Hr Hb|u c j Hr Hb Hj]; project.
    + split; [intros []|]. now apply ends_preflight.
    + split; [intros []|]. now apply ends_missing_header.
    + split; [intros [H|[]]; discriminate|].
      now apply (ends_unauthorized env db (with_body req b)).
    + split; [intros [H|[H|[]]]; discriminate|].
      now apply (ends_no_config env db (with_body req b) u).
    + split; [intros [H|[H|[H|[H|[]]]]]; discriminate|].
      now apply (ends_skipped env db (with_body req b) u c).
    + split.
      * intros H. apply gate_events_spec in H.
        destruct H as [H|[H|[[H _]|H]]]; discriminate.
      * now apply (ends_quota env db (with_body req b) u c).
    + exfalso. cbn in Hst. destruct Hst as [H|[H|[H|[H|[]]]]]; discriminate.
    + exfalso. unfold after_insert in Hst.
      destruct (new_row env db (insert_object u j)); cbn in Hst;
        destruct Hst as [H|[H|[H|[H|[]]]]]; discriminate.
  - intros env db req u c msg Ha Hc Hp Hs _.
    now rewrite (ends_skipped env db req u c).
  - intros env db req u c msg Ha Hc Hs Hq _.
    now rewrite (ends_quota env db req u c).
  - intros env db req u c msg Hr Hb.
    rewrite (ends_unparsable env db req u c msg) by assumption.
    split; reflexivity.
Qed.

Lemma payload_read_after_gates_witness :
  status (response (handler Sample.env
            (Sample.db (Sample.config always 100 2) Sample.two_today)
            Sample.req_garbled)) = 429
  /\
  response (handler Sample.env
              (Sample.db (Sample.config always 100 2) Sample.one_today)
              Sample.req_garbled)
    = json_response 500
        (body_error "Unexpected token < in JSON at position 0").
Proof.
  destruct payload_read_after_gates as (_ & _ & H429 & H500).
  assert (Ha : authenticated Sample.env Sample.req_garbled Sample.alice)
    by evaluate.
  assert (Hs : passes_sampling Sample.env (Sample.config always 100 2)
               = true) by evaluate.
  split.
  - assert (Hc : configured Sample.env
             (Sample.db (Sample.config always 100 2) Sample.two_today)
             Sample.alice (Sample.config always 100 2)) by evaluate.
    assert (Hq : limit_reached
                   (count_today Sample.env
                      (Sample.db (Sample.config always 100 2)
                         Sample.two_today) Sample.alice)
                   (EvalConfigs.max_eval_per_day
                      (Sample.config always 100 2)) = true) by evaluate.
    exact (H429 _ _ _ _ _ _ Ha Hc Hs Hq eq_refl).
  - assert (Hc : configured Sample.env
             (Sample.db (Sample.config always 100 2) Sample.one_today)
             Sample.alice (Sample.config always 100 2)) by evaluate.
    assert (Hq : limit_reached
                   (count_today Sample.env
                      (Sample.db (Sample.config always 100 2)
                         Sample.one_today) Sample.alice)
                   (EvalConfigs.max_eval_per_day
                      (Sample.config always 100 2)) = false) by evaluate.
    exact (proj1 (H500 _ _ _ _ _ _
                    (conj Ha (conj Hc (conj Hs Hq))) eq_refl)).
Defined.

(** ** C10: a failed config read *)

(** C10. When the config read fails, the error is dropped and the call
    is answered 400 "No evaluation config found", with the store
    untouched: the very answer given to a user who has no config row. *)
Theorem config_read_failure_is_no_config env db req u e :
  authenticated env req u ->
  config_fault env = Some e ->
  error (select_config env db (Auth.id u)) = Some e /\
  response (handler env db req)
    = json_response 400 (body_error "No evaluation config found") /\
  store (handler env db req) = db /\
  (forall env' db' req',
     authenticated env' req' u ->
     config_fault env' = None ->
     filter (fun c => (EvalConfigs.user_id c =? Auth.id u)%string)
            (eval_configs db') = [] ->
     response (handler env' db' req') = response (handler env db req)).
Proof.
  intros Ha Hf.
  assert (Hd : data (select_config env db (Auth.id u)) = None).
  { unfold select_config. now rewrite Hf. }
  split.
  { unfold select_config. now rewrite Hf. }
  rewrite (ends_no_config env db req u Ha Hd). project.
  split; [reflexivity|]. split; [reflexivity|].
  intros env' db' req' Ha' Hf' Hnone.
  rewrite (ends_no_config env' db' req' u Ha'); [reflexivity|].
  unfold select_config. now rewrite Hf', Hnone.
Qed.

Lemma config_read_failure_is_no_config_witness :
  response (handler Sample.env_config_down
              (Sample.db (Sample.config always 100 2) Sample.one_today)
              Sample.req)
    = json_response 400 (body_error "No evaluation config found").
Proof.
  assert (Ha : authenticated Sample.env_config_down Sample.req Sample.alice)
    by evaluate.
  exact (proj1 (proj2
           (config_read_failure_is_no_config Sample.env_config_down
              (Sample.db (Sample.config always 100 2) Sample.one_today)
              Sample.req Sample.alice (IoFailure "upstream connect error")
              Ha eq_refl))).
Defined.

(** * Further properties of the handler *)

(** A call leaves the store as it was, or appends the one row it
    answers with. *)
Lemma handler_store env db req :
  (store (handler env db req) = db /\
   status (response (handler env db req)) <> 201) \/
  (exists u c j r,
     reaches_payload env db req u c /\
     body req = Parsed j /\ j <> JNull /\
     new_row env db (insert_object u j) = inr r /\
     response (handler env db req) = json_response 201 (body_success r) /\
     store (handler env db req) = append_evaluation db r).
Proof.
  destruct (handler_ends env db req)
    as [Hm|Hm Hh|Hm Hh Hu|u Ha Hc|u c Ha Hc Hr Hs|u c Ha Hc Hs Hq
        |u c msg Hr Hb|u c j Hr Hb Hj]; project;
    try (left; split; [reflexivity|discriminate]).
  unfold after_insert.
  destruct (new_row env db (insert_object u j)) as [e|r] eqn:Hrow; project.
  - left. split; [reflexivity|discriminate].
  - right. exists u, c, j, r.
    split; [exact Hr|]. split; [exact Hb|]. split; [exact Hj|].
    split; [exact Hrow|]. split; reflexivity.
Qed.

Lemma existsb_id_false x (rows : list Evaluations.row) :
  existsb (fun r => (Evaluations.id r =? x)%string) rows = false ->
  ~ In x (map Evaluations.id rows).
Proof.
  induction rows as [|r rows IH]; [intros _ []|].
  cbn [existsb map]. intros H. apply orb_false_iff in H as [H1 H2].
  intros [E|E].
  - apply String.eqb_neq in H1. congruence.
  - now apply IH.
Qed.

(** What the store checks on a row it accepts. *)
Lemma new_row_checks env db o r :
  new_row env db o = inr r ->
  col_latency_ms (i_latency_ms o) = inr (Evaluations.latency_ms r) /\
  col_score (i_score o) = inr (Evaluations.score r) /\
  col_flags (i_flags o) = inr (Evaluations.flags r) /\
  col_pii_tokens_redacted (i_pii_tokens_redacted o)
    = inr (Evaluations.pii_tokens_redacted r).
Proof.
  unfold new_row, bind_sum.
  destruct (insert_fault env); [discriminate|].
  destruct (col_text "interaction_id" (i_interaction_id o)); [discriminate|].
  destruct (col_text "prompt" (i_prompt o)); [discriminate|].
  destruct (col_text "response" (i_response o)); [discriminate|].
  destruct (col_score (i_score o)); [discriminate|].
  destruct (col_latency_ms (i_latency_ms o)); [discriminate|].
  destruct (col_flags (i_flags o)); [discriminate|].
  destruct (col_pii_tokens_redacted (i_pii_tokens_redacted o));
    [discriminate|].
  destruct (existsb _ (evaluations db)); [discriminate|].
  intros H. injection H as <-. cbn. repeat split; reflexivity.
Qed.

(** X1. The handler never rewrites the store: the config table is left
    as it is, and the evaluation table either is unchanged or gains, at
    its end, the single row returned in a 201 answer.  The store changes
    exactly when the answer is 201. *)
Theorem store_changes_only_on_201 env db req :
  eval_configs (store (handler env db req)) = eval_configs db /\
  ((status (response (handler env db req)) = 201 /\
    exists r,
      response (handler env db req) = json_response 201 (body_success r) /\
      evaluations (store (handler env db req))
        = (evaluations db ++ [r])%list)
   \/
   (status (response (handler env db req)) <> 201 /\
    store (handler env db req) = db)).
Proof.
  destruct (handler_store env db req)
    as [[Hs Hn]|(u & c & j & r & _ & _ & _ & _ & Hr & Hs)].
  - rewrite Hs. split; [reflexivity|]. right. now split.
  - rewrite Hs, Hr. split; [reflexivity|]. left.
    split; [reflexivity|]. exists r. split; reflexivity.
Qed.

(** X2. A call for which no identity is resolved is answered 401, leaves
    the store untouched, and makes no call besides the token check: the
    config, the count, the body and the insertion are never reached. *)
Theorem unauthenticated_reaches_nothing env db req :
  method req <> "OPTIONS" ->
  (forall u, ~ authenticated env req u) ->
  status (response (handler env db req)) = 401 /\
  store (handler env db req) = db /\
  (forall e, In e (events (handler env db req)) ->
             e = ev_getUser (token_of req)).
Proof.
  intros Hm Hno.
  destruct (handler_ends env db req)
    as [Hm'|Hm' Hh|Hm' Hh Hu|u Ha Hc|u c Ha Hc Hr Hs|u c Ha Hc Hs Hq
        |u c msg Hr Hb|u c j Hr Hb Hj]; project;
    try contradiction;
    try (exfalso; exact (Hno u Ha));
    try (exfalso; exact (Hno u (proj1 Hr))).
  - split; [reflexivity|]. split; [reflexivity|]. intros e [].
  - split; [reflexivity|]. split; [reflexivity|].
    intros e [<-|[]]. reflexivity.
Qed.

Lemma unauthenticated_reaches_nothing_witness :
  status (response (handler Sample.env
            (Sample.db (Sample.config always 100 2) Sample.one_today)
            (with_authorization Sample.req (Some "Bearer stolen"))))
  = 401.
Proof.
  assert (Hm : method (with_authorization Sample.req (Some "Bearer stolen"))
               <> "OPTIONS") by discriminate.
  assert (Hno : forall u,
            ~ authenticated Sample.env
                (with_authorization Sample.req (Some "Bearer stolen")) u).
  { intros u (_ & _ & He & _). vm_compute in He. discriminate. }
  exact (proj1 (unauthenticated_reaches_nothing _ _ _ Hm Hno)).
Defined.

(** X3. A call touches the records of the caller only: for every user
    other than the one the token resolves to, the records owned by that
    user are the same before and after, whatever the payload names. *)
Theorem other_users_untouched env db req v :
  (forall u, authenticated env req u -> Auth.id u <> v) ->
  filter (owned_by v) (evaluations (store (handler env db req)))
  = filter (owned_by v) (evaluations db).
Proof.
  intros Hv.
  destruct (handler_store env db req)
    as [[Hs _]|(u & c & j & r & Hr & _ & _ & Hrow & _ & Hs)];
    rewrite Hs; [reflexivity|].
  cbn [append_evaluation evaluations]. rewrite filter_app.
  destruct (new_row_columns _ _ _ _ Hrow) as (_ & Huid & _).
  cbn [filter]. unfold owned_by at 2. rewrite Huid.
  cbn [insert_object i_user_id].
  destruct (String.eqb_spec (Auth.id u) v) as [E|_].
  - exfalso. exact (Hv u (proj1 Hr) E).
  - apply app_nil_r.
Qed.

Lemma other_users_untouched_witness :
  filter (owned_by "0000-mallory")
    (evaluations (store (handler Sample.env
       (Sample.db (Sample.config always 100 2) Sample.one_today)
       Sample.req)))
  = filter (owned_by "0000-mallory")
      (evaluations (Sample.db (Sample.config always 100 2) Sample.one_today)).
Proof.
  apply other_users_untouched.
  intros u (_ & _ & _ & Hu). vm_compute in Hu. injection Hu as <-.
  discriminate.
Defined.

(** X4. The primary key is kept: if no two rows of the evaluation table
    share an [id] before a call, none do after it. *)
Theorem primary_key_preserved env db req :
  NoDup (map Evaluations.id (evaluations db)) ->
  NoDup (map Evaluations.id (evaluations (store (handler env db req)))).
Proof.
  intros Hnd.
  destruct (handler_store env db req)
    as [[Hs _]|(u & c & j & r & _ & _ & _ & Hrow & _ & Hs)];
    rewrite Hs; [assumption|].
  cbn [append_evaluation evaluations]. rewrite map_app. cbn [map].
  destruct (new_row_columns _ _ _ _ Hrow)
    as (Hid & _ & _ & _ & _ & _ & _ & Hfresh).
  apply existsb_id_false in Hfresh. rewrite <- Hid in Hfresh.
  apply NoDup_app.
  - assumption.
  - constructor; [intros []|constructor].
  - intros x Hx [<-|[]]. contradiction.
Qed.

Lemma primary_key_preserved_witness :
  NoDup (map Evaluations.id (evaluations (store (handler Sample.env
     (Sample.db (Sample.config always 100 2) Sample.one_today)
     Sample.req)))).
Proof.
  apply primary_key_preserved.
  repeat constructor; cbn; intuition discriminate.
Defined.




(** ** The daily limit over a sequence of calls *)

Lemma eval_configs_kept env db req :
  eval_configs (store (handler env db req)) = eval_configs db.
Proof.
  destruct (handler_store env db req)
    as [[Hs _]|(u & c & j & r & _ & _ & _ & _ & _ & Hs)];
    now rewrite Hs.
Qed.

Lemma configured_in env db u c :
  configured env db u c ->
  In c (eval_configs db) /\ EvalConfigs.user_id c = Auth.id u.
Proof.
  unfold configured, select_config.
  destruct (config_fault env); [discriminate|].
  destruct (filter _ (eval_configs db)) as [|c' [|]] eqn:Hf;
    try discriminate.
  intros H. injection H as <-.
  assert (Hin : In c' (filter (fun c => (EvalConfigs.user_id c
                                         =? Auth.id u)%string)
                              (eval_configs db)))
    by (rewrite Hf; now left).
  apply filter_In in Hin as [Hin He]. split; [assumption|].
  now apply String.eqb_eq.
Qed.

(** One call: the count of a user stays below the larger of what it was
    and the user's limit. *)
Lemma count_after_call env db req uid K :
  count_fault env = None ->
  (forall c, In c (eval_configs db) -> EvalConfigs.user_id c = uid ->
             EvalConfigs.max_eval_per_day c <= K) ->
  count_since uid (today env) (store (handler env db req))
  <= Z.max (count_since uid (today env) db) K.
Proof.
  intros Hf HK.
  destruct (handler_store env db req)
    as [[Hs _]|(u & c & j & r & Hr & _ & _ & Hrow & _ & Hs)];
    rewrite Hs; [lia|].
  destruct Hr as (_ & Hc & _ & Hq).
  destruct (new_row_columns _ _ _ _ Hrow) as (_ & Huid & _).
  cbn [insert_object i_user_id] in Huid.
  unfold count_since. cbn [append_evaluation evaluations].
  rewrite filter_app, length_app, Nat2Z.inj_add. cbn [filter].
  unfold counted at 2. rewrite Huid.
  destruct (String.eqb_spec (Auth.id u) uid) as [E|_]; cbn [andb].
  - destruct (configured_in _ _ _ _ Hc) as [Hin Hcu].
    pose proof (HK c Hin (eq_trans Hcu E)) as Hmax.
    unfold count_today, select_count in Hq. rewrite Hf in Hq.
    cbn [count limit_reached] in Hq. apply Z.leb_gt in Hq.
    rewrite E in Hq.
    destruct (today env <=? Evaluations.created_at r);
      cbn [List.length]; lia.
  - cbn [List.length]. lia.
Qed.

(** X6. Served one after the other, with count reads that succeed and
    within one day, calls never take a user's count of the day above
    the limit of that user's config: after any sequence of calls the
    count is at most the larger of the initial count and the limit. *)
Theorem daily_limit_holds_over_calls uid t K calls : forall db,
  (forall c, In c (eval_configs db) -> EvalConfigs.user_id c = uid ->
             EvalConfigs.max_eval_per_day c <= K) ->
  Forall (fun call => count_fault (fst call) = None /\
                      today (fst call) = t) calls ->
  count_since uid t (run db calls) <= Z.max (count_since uid t db) K.
Proof.
  induction calls as [|[env req] calls IH]; intros db HK Hcalls.
  - cbn [run]. lia.
  - inversion Hcalls as [|? ? [Hf Ht] Hrest]; subst. cbn [fst] in *.
    cbn [run].
    pose proof (count_after_call env db req uid K Hf HK) as Hstep.
    specialize (IH (store (handler env db req))).
    rewrite eval_configs_kept in IH.
    specialize (IH HK Hrest). lia.
Qed.

Lemma daily_limit_holds_over_calls_witness :
  count_since (Auth.id Sample.alice) Sample.midnight
    (run (Sample.db (Sample.config always 100 2) [])
         [(Sample.env, Sample.req); (Sample.env_later, Sample.req);
          (Sample.env_last, Sample.req)])
  <= Z.max (count_since (Auth.id Sample.alice) Sample.midnight
              (Sample.db (Sample.config always 100 2) [])) 2.
Proof.
  apply daily_limit_holds_over_calls.
  - intros c [<-|[]] _. cbn. lia.
  - repeat constructor.
Defined.

(** ** Payloads of the declared type *)

Lemma Qred_inject_Z n : Qred (inject_Z n) = inject_Z n.
Proof.
  unfold Qred, inject_Z.
  pose proof (Z.ggcd_gcd n 1) as Hg.
  pose proof (Z.ggcd_correct_divisors n 1) as Hd.
  destruct (Z.ggcd n 1) as [g [aa bb]]. cbn [fst snd] in *.
  rewrite Z.gcd_1_r in Hg. subst g. destruct Hd as [Ha Hb].
  rewrite !Z.mul_1_l in *. subst aa bb. reflexivity.
Qed.

Lemma json_int_inject_Z c n :
  int4_min <= n <= int4_max -> json_int c (inject_Z n) = inr n.
Proof.
  intros [H1 H2]. unfold json_int. rewrite Qred_inject_Z.
  cbn [inject_Z Qden Qnum]. rewrite Pos.eqb_refl.
  apply Z.leb_le in H1, H2. now rewrite H1, H2.
Qed.

Lemma text_array_strings c l :
  (forall f, In f l -> has_nul f = false) ->
  text_array c (map JStr l) = inr l.
Proof.
  induction l as [|s l IH]; intros H; [reflexivity|].
  cbn [map text_array]. rewrite (H s) by now left.
  rewrite IH; [reflexivity|]. intros f Hf. apply H. now right.
Qed.

Lemma round2_two_decimals (k : Z) : 0 <= k -> round2 (k # 100) = k.
Proof.
  intros Hk. unfold round2. cbn [Qnum Qden].
  rewrite Z.abs_eq by lia.
  replace (2 * (k * 100) + 100) with (100 + k * (2 * 100)) by lia.
  rewrite Z.div_add by lia. change (100 / (2 * 100)) with 0.
  destruct (Z.sgn_spec (k * 100)) as [[? ->]|[[? ->]|[? ->]]]; lia.
Qed.

Lemma round2_unit (s : Q) :
  (0 <= s /\ s <= 1)%Q -> 0 <= round2 s <= 100.
Proof.
  intros [H0 H1]. unfold round2, Qle in *. cbn [Qnum Qden] in *.
  destruct s as [n d]. cbn [Qnum Qden] in *.
  assert (Hn : 0 <= n) by lia. assert (Hd : n <= Z.pos d) by lia.
  rewrite Z.abs_eq by lia.
  assert (Hq : 0 <= (2 * (n * 100) + Z.pos d) / (2 * Z.pos d) <= 100).
  { split.
    - apply Z.div_pos; lia.
    - assert ((2 * (n * 100) + Z.pos d) / (2 * Z.pos d) < 101); [|lia].
      apply Z.div_lt_upper_bound; lia. }
  destruct (Z.sgn_spec (n * 100)) as [[_ ->]|[[_ ->]|[? _]]]; lia.
Qed.

Lemma col_score_unit (s : Q) :
  (0 <= s /\ s <= 1)%Q ->
  col_score (Some (JNum s)) = inr (Some (Qred (round2 s # 100))).
Proof.
  intros Hs. pose proof (round2_unit s Hs) as [H0 H1].
  unfold col_score, numeric_3_2.
  assert (Ha : (Z.abs (round2 s) <? 1000) = true) by (apply Z.ltb_lt; lia).
  rewrite Ha.
  assert (Hlo : Qle_bool 0 (Qred (round2 s # 100)) = true).
  { apply Qle_bool_iff. rewrite Qred_correct.
    unfold Qle. cbn [Qnum Qden]. lia. }
  assert (Hhi : Qle_bool (Qred (round2 s # 100)) 1 = true).
  { apply Qle_bool_iff. rewrite Qred_correct.
    unfold Qle. cbn [Qnum Qden]. lia. }
  now rewrite Hlo, Hhi.
Qed.

(** The object the handler builds from a payload of the declared type. *)
Lemma insert_object_payload u p :
  insert_object u (payload_json p)
  = {| i_user_id := Auth.id u;
       i_interaction_id := Some (JStr (p_interaction_id p));
       i_prompt := Some (JStr (p_prompt p));
       i_response := Some (JStr (p_response p));
       i_score := option_map JNum (p_score p);
       i_latency_ms := Some (JNum (inject_Z (p_latency_ms p)));
       i_flags :=
         Some (JArr (map JStr
                 (match p_flags p with Some l => l | None => [] end)));
       i_pii_tokens_redacted :=
         Some (JNum (inject_Z
                 (match p_pii_tokens_redacted p with
                  | Some n => n
                  | None => 0
                  end))) |}.
Proof.
  destruct p as [i pr re sc la fl pii].
  destruct sc, fl, pii as [[| |]|]; reflexivity.
Qed.

(** X7. A payload of the declared type is stored as sent.  For a call
    that reaches the body, with text fields and flags free of the
    character of code 0, a score of [0, 1] written with two decimals, a
    latency and a redaction count that fit their integer columns, a
    store that is up and an unused identifier, the answer is 201 with a
    row holding the caller's identity and the payload's fields (the score
    as sent, missing flags as the empty array, a missing count as 0), and
    that row is what is appended. *)
Theorem typed_payload_is_stored env db req u c p :
  reaches_payload env db req u c ->
  body req = Parsed (payload_json p) ->
  insert_fault env = None ->
  existsb (fun r => (Evaluations.id r =? gen_random_uuid env)%string)
          (evaluations db) = false ->
  storable p ->
  response (handler env db req)
    = json_response 201 (body_success (stored_row env u p)) /\
  store (handler env db req)
    = append_evaluation db (stored_row env u p) /\
  (forall s, p_score p = Some s ->
             Evaluations.score (stored_row env u p) = Some (Qred s)).
Proof.
  intros Hr Hb Hf Hfresh [Hi Hpr Hre Hsc Hlat Hfl Hpii].
  assert (Hunit : forall s, p_score p = Some s -> (0 <= s /\ s <= 1)%Q).
  { intros s Hs. destruct (Hsc s Hs) as (k & Hk & ->).
    unfold Qle. cbn [Qnum Qden]. lia. }
  assert (Hrow : new_row env db (insert_object u (payload_json p))
                 = inr (stored_row env u p)).
  { rewrite insert_object_payload. unfold new_row, bind_sum.
    rewrite Hf.
    cbn [i_interaction_id i_prompt i_response i_score i_latency_ms
         i_flags i_pii_tokens_redacted i_user_id col_text].
    rewrite Hi, Hpr, Hre.
    assert (E1 : col_score (option_map JNum (p_score p))
                 = inr (option_map (fun s => Qred (round2 s # 100))
                                   (p_score p))).
    { destruct (p_score p) as [s|] eqn:Es; [|reflexivity].
      cbn [option_map]. apply col_score_unit. now apply Hunit. }
    assert (E2 : col_latency_ms (Some (JNum (inject_Z (p_latency_ms p))))
                 = inr (p_latency_ms p)).
    { unfold col_latency_ms. rewrite json_int_inject_Z.
      - destruct (Z.leb_spec 0 (p_latency_ms p)); [reflexivity|lia].
      - unfold int4_min. lia. }
    assert (E3 : col_flags
                   (Some (JArr (map JStr
                      (match p_flags p with Some l => l | None => [] end))))
                 = inr (Some (match p_flags p with
                              | Some l => l
                              | None => []
                              end))).
    { unfold col_flags. rewrite text_array_strings; [reflexivity|].
      destruct (p_flags p) as [l|]; [|intros f []].
      intros f Hin. now apply (Hfl l). }
    assert (E4 : col_pii_tokens_redacted
                   (Some (JNum (inject_Z
                      (match p_pii_tokens_redacted p with
                       | Some n => n
                       | None => 0
                       end))))
                 = inr (Some (match p_pii_tokens_redacted p with
                              | Some n => n
                              | None => 0
                              end))).
    { unfold col_pii_tokens_redacted. rewrite json_int_inject_Z;
        [reflexivity|].
      destruct (p_pii_tokens_redacted p) as [n|];
        [now apply Hpii|unfold int4_min, int4_max; lia]. }
    rewrite E1, E2, E3, E4, Hfresh. reflexivity. }
  assert (Hj : payload_json p <> JNull) by discriminate.
  rewrite (ends_after_insert env db req u c (payload_json p) Hr Hb Hj).
  unfold after_insert. rewrite Hrow.
  split; [reflexivity|]. split; [reflexivity|].
  intros s Hs. cbn [stored_row Evaluations.score]. rewrite Hs.
  cbn [option_map]. destruct (Hsc s Hs) as (k & Hk & ->).
  rewrite round2_two_decimals by lia. reflexivity.
Qed.

Lemma typed_payload_is_stored_witness :
  store (handler Sample.env
           (Sample.db (Sample.config always 100 2) Sample.one_today)
           (with_body Sample.req (Parsed (payload_json
              {| p_interaction_id := "int_43"; p_prompt := "ping";
                 p_response := "pong"; p_score := Some (83 # 100);
                 p_latency_ms := 250;
                 p_flags := Some ["needs-review"];
                 p_pii_tokens_redacted := Some 3 |}))))
  = append_evaluation
      (Sample.db (Sample.config always 100 2) Sample.one_today)
      (stored_row Sample.env Sample.alice
         {| p_interaction_id := "int_43"; p_prompt := "ping";
            p_response := "pong"; p_score := Some (83 # 100);
            p_latency_ms := 250;
            p_flags := Some ["needs-review"];
            p_pii_tokens_redacted := Some 3 |}).
Proof.
  pose (p := {| p_interaction_id := "int_43"; p_prompt := "ping";
                p_response := "pong"; p_score := Some (83 # 100);
                p_latency_ms := 250;
                p_flags := Some ["needs-review"];
                p_pii_tokens_redacted := Some 3 |}).
  pose (db := Sample.db (Sample.config always 100 2) Sample.one_today).
  pose (req := with_body Sample.req (Parsed (payload_json p))).
  assert (Ha : authenticated Sample.env req Sample.alice) by evaluate.
  assert (Hc : configured Sample.env db Sample.alice
                 (Sample.config always 100 2)) by evaluate.
  assert (Hs : passes_sampling Sample.env (Sample.config always 100 2)
               = true) by evaluate.
  assert (Hq : limit_reached (count_today Sample.env db Sample.alice)
                 (EvalConfigs.max_eval_per_day
                    (Sample.config always 100 2)) = false) by evaluate.
  assert (Hfresh :
    existsb (fun r => (Evaluations.id r
                       =? gen_random_uuid Sample.env)%string)
            (evaluations db) = false) by evaluate.
  assert (Hp : storable p).
  { constructor.
    - reflexivity.
    - reflexivity.
    - reflexivity.
    - intros s E. injection E as <-. exists 83. split; [lia|reflexivity].
    - vm_compute. split; discriminate.
    - intros l f E. injection E as <-. intros [<-|[]]. reflexivity.
    - intros n E. injection E as <-. vm_compute. split; discriminate. }
  exact (proj1 (proj2 (typed_payload_is_stored Sample.env db req Sample.alice
                  (Sample.config always 100 2) p
                  (conj Ha (conj Hc (conj Hs Hq))) eq_refl eq_refl
                  Hfresh Hp))).
Defined.

(** ** The token taken from the header *)

Lemma string_length_append (a b : string) :
  String.length (a ++ b) = (String.length a + String.length b)%nat.
Proof.
  induction a as [|c a IH]; [reflexivity|]. cbn. now rewrite IH.
Qed.

Lemma substring_all (s : string) :
  String.substring 0 (String.length s) s = s.
Proof.
  induction s as [|c s IH]; [reflexivity|]. cbn. now rewrite IH.
Qed.

Lemma substring_skip (p s : string) (m : nat) :
  String.substring (String.length p) m (p ++ s) = String.substring 0 m s.
Proof.
  induction p as [|c p IH]; [reflexivity|]. cbn. exact IH.
Qed.

Lemma prefix_append (p s : string) : String.prefix p (p ++ s) = true.
Proof.
  induction p as [|c p IH]; [now destruct s|]. cbn.
  destruct (Ascii.ascii_dec c c); [exact IH|congruence].
Qed.

Lemma prefix_inv (p : string) : forall s,
  String.prefix p s = true -> exists b, s = p ++ b.
Proof.
  induction p as [|c p IH]; intros s H.
  - now exists s.
  - destruct s as [|c' s]; [discriminate|]. cbn in H.
    destruct (Ascii.ascii_dec c c') as [<-|]; [|discriminate].
    destruct (IH s H) as [b ->]. now exists b.
Qed.

Lemma replace_at_start pat rep s :
  replace pat rep (pat ++ s) = rep ++ s.
Proof.
  assert (E : String.substring (String.length pat)
                (String.length (pat ++ s) - String.length pat) (pat ++ s)
              = s).
  { rewrite substring_skip, string_length_append.
    replace (String.length pat + String.length s - String.length pat)%nat
      with (String.length s) by lia.
    apply substring_all. }
  destruct (pat ++ s) as [|c t] eqn:Hs; cbn [replace].
  - rewrite <- Hs at 1. rewrite prefix_append. now rewrite E.
  - rewrite <- Hs at 1. rewrite prefix_append. now rewrite E.
Qed.

Lemma replace_absent pat rep : forall s,
  ~ occurs pat s -> replace pat rep s = s.
Proof.
  induction s as [|c s IH]; intros Hno.
  - cbn [replace]. destruct (String.prefix pat EmptyString) eqn:Hp;
      [|reflexivity].
    exfalso. apply Hno. destruct (prefix_inv _ _ Hp) as [b Hb].
    exists EmptyString, b. exact Hb.
  - cbn [replace]. destruct (String.prefix pat (String c s)) eqn:Hp.
    + exfalso. apply Hno. destruct (prefix_inv _ _ Hp) as [b Hb].
      exists EmptyString, b. exact Hb.
    + f_equal. apply IH. intros (a & b & ->). apply Hno.
      now exists (String c a), b.
Qed.

Lemma replace_first pat rep : forall a b,
  (forall a' b', a ++ pat ++ b = a' ++ pat ++ b' ->
                 (String.length a <= String.length a')%nat) ->
  replace pat rep (a ++ pat ++ b) = a ++ rep ++ b.
Proof.
  induction a as [|c a IH]; intros b Hmin.
  - exact (replace_at_start pat rep b).
  - change (String c a ++ pat ++ b) with (String c (a ++ pat ++ b)).
    cbn [replace].
    destruct (String.prefix pat (String c (a ++ pat ++ b))) eqn:Hp.
    + exfalso. destruct (prefix_inv _ _ Hp) as [b' Hb'].
      specialize (Hmin EmptyString b' Hb'). cbn in Hmin. lia.
    + change (String c a ++ rep ++ b) with (String c (a ++ rep ++ b)).
      f_equal. apply IH. intros a' b' E.
      specialize (Hmin (String c a') b'). cbn in Hmin.
      rewrite E in Hmin. specialize (Hmin eq_refl). lia.
Qed.

(** X8. The token handed to the identity service is the header with
    its first "Bearer " taken out, wherever that stands: a header
    without "Bearer " is passed whole, and in [a ++ "Bearer " ++ b],
    where no occurrence starts before the end of [a], the token is
    [a ++ b] (later occurrences stay). *)
Theorem token_is_header_without_first_bearer req :
  (forall h, authorization req = Some h -> ~ occurs "Bearer " h ->
             token_of req = h) /\
  (forall a b,
     authorization req = Some (a ++ "Bearer " ++ b) ->
     (forall a' b', a ++ "Bearer " ++ b = a' ++ "Bearer " ++ b' ->
                    (String.length a <= String.length a')%nat) ->
     token_of req = a ++ b).
Proof.
  unfold token_of. split.
  - intros h -> Hno. cbn [header_value]. now apply replace_absent.
  - intros a b -> Hmin. cbn [header_value].
    exact (replace_first "Bearer " EmptyString a b Hmin).
Qed.

Lemma token_is_header_without_first_bearer_witness :
  token_of (with_authorization Sample.req
              (Some ("Basic " ++ "Bearer " ++ "x Bearer y")))
  = "Basic " ++ "x Bearer y".
Proof.
  apply (proj2 (token_is_header_without_first_bearer
                  (with_authorization Sample.req
                     (Some ("Basic " ++ "Bearer " ++ "x Bearer y"))))
           "Basic " "x Bearer y" eq_refl).
  intros a' b' E.
  destruct a' as [|c0 [|c1 [|c2 [|c3 [|c4 [|c5 a']]]]]];
    try (cbn in E; discriminate E).
  cbn. lia.
Defined.

Lemma handler_by_token env db req req' :
  method req' = method req ->
  header_present (authorization req') = header_present (authorization req) ->
  token_of req' = token_of req ->
  body req' = body req ->
  handler env db req' = handler env db req.
Proof.
  intros Hm Hh Ht Hb. unfold handler, try_block, req_json.
  fold (token_of req). fold (token_of req').
  now rewrite Hm, Hh, Ht, Hb.
Qed.

(** X9. The scheme word is optional: a header that is the bare token
    (not empty, and without "Bearer " inside) is served exactly like the
    header "Bearer " followed by that token. *)
Theorem bearer_prefix_is_optional env db req t :
  t <> EmptyString ->
  ~ occurs "Bearer " t ->
  handler env db (with_authorization req (Some t))
  = handler env db (with_authorization req (Some ("Bearer " ++ t))).
Proof.
  intros Hne Hno. apply handler_by_token; try reflexivity.
  - cbn [with_authorization authorization header_present].
    destruct t; [congruence|reflexivity].
  - unfold token_of. cbn [with_authorization authorization header_value].
    rewrite replace_at_start.
    now rewrite replace_absent.
Qed.

Lemma occurs_occursb pat s : occurs pat s -> occursb pat s = true.
Proof.
  intros (a & b & ->). induction a as [|c a IH].
  - cbn [append]. destruct (pat ++ b) eqn:E; cbn [occursb];
      rewrite <- E, prefix_append; reflexivity.
  - change (String c a ++ pat ++ b) with (String c (a ++ pat ++ b)).
    cbn [occursb]. rewrite IH. apply orb_true_r.
Qed.

Lemma bearer_prefix_is_optional_witness :
  handler Sample.env
    (Sample.db (Sample.config always 100 2) Sample.one_today)
    (with_authorization Sample.req (Some "alice-jwt"))
  = handler Sample.env
      (Sample.db (Sample.config always 100 2) Sample.one_today)
      (with_authorization Sample.req (Some ("Bearer " ++ "alice-jwt"))).
Proof.
  apply bearer_prefix_is_optional.
  - discriminate.
  - intros H. apply occurs_occursb in H. vm_compute in H. discriminate.
Defined.

(** ** Headers of the answers *)

(** X10. Every answer carries the two CORS headers, the error answers
    included; and every answer other than the preflight one is declared
    as JSON and has a body. *)
Theorem cors_headers_on_every_answer env db req :
  incl corsHeaders (headers (response (handler env db req))) /\
  (method req <> "OPTIONS" ->
   In ("Content-Type", "application/json")
      (headers (response (handler env db req))) /\
   payload_out (response (handler env db req)) <> None).
Proof.
  assert (Hj : forall st b,
            incl corsHeaders (headers (json_response st b)) /\
            In ("Content-Type", "application/json")
               (headers (json_response st b)) /\
            payload_out (json_response st b) <> None).
  { intros st b. cbn [json_response headers payload_out].
    split; [apply incl_appl, incl_refl|].
    split; [apply in_or_app; right; now left|discriminate]. }
  destruct (handler_ends env db req)
    as [Hm|Hm Hh|Hm Hh Hu|u Ha Hc|u c Ha Hc Hr Hs|u c Ha Hc Hs Hq
        |u c msg Hr Hb|u c j Hr Hb Hj'];
    try (cbn [response]; split; [apply Hj|intros _; apply Hj]).
  - cbn [response headers]. split; [apply incl_refl|]. contradiction.
  - unfold after_insert.
    destruct (new_row env db (insert_object u j)); cbn [response];
      (split; [apply Hj|intros _; apply Hj]).
Qed.

Lemma cors_headers_on_every_answer_witness :
  In ("Content-Type", "application/json")
     (headers (response (handler Sample.env
        (Sample.db (Sample.config always 100 2) Sample.two_today)
        Sample.req_garbled))).
Proof.
  assert (Hm : method Sample.req_garbled <> "OPTIONS") by discriminate.
  exact (proj1 (proj2 (cors_headers_on_every_answer _ _ _) Hm)).
Defined.

(** ** Raising the sample rate *)

Lemma shouldProcess_mono r p p' :
  p <= p' -> shouldProcess r p = true -> shouldProcess r p' = true.
Proof.
  intros Hle H. apply shouldProcess_spec in H. apply shouldProcess_spec.
  assert (Hq : (inject_Z p <= inject_Z p')%Q) by now rewrite <- Zle_Qle.
  apply binary64_mono in Hq. lra.
Qed.

Lemma count_today_ext env db db' u :
  evaluations db' = evaluations db ->
  count_today env db' u = count_today env db u.
Proof.
  intros H. unfold count_today, select_count. now rewrite H.
Qed.

Lemma new_row_ext env db db' o :
  evaluations db' = evaluations db ->
  new_row env db' o = new_row env db o.
Proof.
  intros H. unfold new_row. now rewrite H.
Qed.

(** X11. Raising the sample rate never loses an evaluation: if a call
    is not skipped under a config, then under a config that differs by a
    higher rate only, on the same records, it gets the same answer and
    leaves the same records. *)
Theorem higher_rate_keeps_answer env db db' req u c c' :
  authenticated env req u ->
  configured env db u c ->
  configured env db' u c' ->
  evaluations db' = evaluations db ->
  EvalConfigs.run_policy c' = EvalConfigs.run_policy c ->
  EvalConfigs.max_eval_per_day c' = EvalConfigs.max_eval_per_day c ->
  EvalConfigs.sample_rate_pct c <= EvalConfigs.sample_rate_pct c' ->
  status (response (handler env db req)) <> 200 ->
  response (handler env db' req) = response (handler env db req) /\
  evaluations (store (handler env db' req))
    = evaluations (store (handler env db req)).
Proof.
  intros Ha Hc Hc' Hev Hp Hmax Hrate Hns.
  assert (Hs : passes_sampling env c = true).
  { destruct (passes_sampling env c) eqn:E; [reflexivity|].
    unfold passes_sampling in E.
    destruct (EvalConfigs.run_policy c) eqn:Hpol; [discriminate|].
    rewrite (ends_skipped env db req u c Ha Hc Hpol E) in Hns.
    now contradiction Hns. }
  assert (Hs' : passes_sampling env c' = true).
  { unfold passes_sampling in *. rewrite Hp.
    destruct (EvalConfigs.run_policy c); [reflexivity|].
    now apply shouldProcess_mono with (EvalConfigs.sample_rate_pct c). }
  pose proof (count_today_ext env db db' u Hev) as Hcnt.
  destruct (limit_reached (count_today env db u)
              (EvalConfigs.max_eval_per_day c)) eqn:Hq.
  { rewrite (ends_quota env db req u c Ha Hc Hs Hq).
    rewrite (ends_quota env db' req u c' Ha Hc' Hs')
      by now rewrite Hcnt, Hmax.
    project. now rewrite Hev. }
  assert (Hr : reaches_payload env db req u c)
    by exact (conj Ha (conj Hc (conj Hs Hq))).
  assert (Hr' : reaches_payload env db' req u c').
  { refine (conj Ha (conj Hc' (conj Hs' _))). now rewrite Hcnt, Hmax. }
  destruct (body req) as [m|j] eqn:Hb.
  { rewrite (ends_unparsable env db req u c m Hr Hb).
    rewrite (ends_unparsable env db' req u c' m Hr' Hb).
    project. now rewrite Hev. }
  destruct (json_null_dec j) as [->|Hj].
  { rewrite (ends_null_payload env db req u c Hr Hb).
    rewrite (ends_null_payload env db' req u c' Hr' Hb).
    project. now rewrite Hev. }
  rewrite (ends_after_insert env db req u c j Hr Hb Hj).
  rewrite (ends_after_insert env db' req u c' j Hr' Hb Hj).
  unfold after_insert. rewrite (new_row_ext env db db' _ Hev).
  destruct (new_row env db (insert_object u j)); project.
  - now rewrite Hev.
  - cbn [append_evaluation evaluations]. now rewrite Hev.
Qed.

Lemma higher_rate_keeps_answer_witness :
  response (handler (with_random Sample.env (3 # 10))
              (Sample.db (Sample.config sampled 90 2) Sample.one_today)
              Sample.req)
  = response (handler (with_random Sample.env (3 # 10))
                (Sample.db (Sample.config sampled 40 2) Sample.one_today)
                Sample.req).
Proof.
  assert (Ha : authenticated (with_random Sample.env (3 # 10)) Sample.req
                 Sample.alice) by evaluate.
  assert (Hc : configured (with_random Sample.env (3 # 10))
                 (Sample.db (Sample.config sampled 40 2) Sample.one_today)
                 Sample.alice (Sample.config sampled 40 2)) by evaluate.
  assert (Hc' : configured (with_random Sample.env (3 # 10))
                 (Sample.db (Sample.config sampled 90 2) Sample.one_today)
                 Sample.alice (Sample.config sampled 90 2)) by evaluate.
  assert (Hrate : EvalConfigs.sample_rate_pct (Sample.config sampled 40 2)
                  <= EvalConfigs.sample_rate_pct
                       (Sample.config sampled 90 2))
    by (vm_compute; discriminate).
  assert (Hns : status (response (handler (with_random Sample.env (3 # 10))
                  (Sample.db (Sample.config sampled 40 2) Sample.one_today)
                  Sample.req)) <> 200)
    by (vm_compute; discriminate).
  exact (proj1 (higher_rate_keeps_answer _ _ _ _ _ _ _
                  Ha Hc Hc' eq_refl eq_refl eq_refl Hrate Hns)).
Defined.

(** ** Required fields *)

Lemma col_text_missing c v e' :
  missing v = true -> col_text c v = inr e' -> False.
Proof.
  destruct v as [[| | | | |]|]; cbn; discriminate.
Qed.

(** X12. The handler checks no field itself: a payload that lacks
    [interaction_id], [prompt], [response] or [latency_ms] (or gives
    [null] for it) still passes every gate and reaches the insertion,
    which the table refuses; the call is answered 500, not 400, and
    nothing is stored. *)
Theorem missing_required_field_is_500 env db req u c j :
  reaches_payload env db req u c ->
  body req = Parsed j -> j <> JNull ->
  missing (field j "interaction_id") || missing (field j "prompt")
  || missing (field j "response") || missing (field j "latency_ms") = true ->
  status (response (handler env db req)) = 500 /\
  store (handler env db req) = db /\
  In (ev_insert (insert_object u j)) (events (handler env db req)).
Proof.
  intros Hr Hb Hj Hmiss.
  rewrite (ends_after_insert env db req u c j Hr Hb Hj).
  unfold after_insert.
  destruct (new_row env db (insert_object u j)) as [e|r] eqn:Hrow; project.
  - split; [reflexivity|]. split; [reflexivity|].
    apply in_or_app. right. right. now left.
  - exfalso. revert Hrow. unfold new_row, bind_sum.
    cbn [insert_object i_interaction_id i_prompt i_response i_score
         i_latency_ms i_flags i_pii_tokens_redacted].
    destruct (insert_fault env); [discriminate|].
    destruct (col_text "interaction_id" (field j "interaction_id"))
      as [|s1] eqn:E1; [discriminate|].
    destruct (col_text "prompt" (field j "prompt"))
      as [|s2] eqn:E2; [discriminate|].
    destruct (col_text "response" (field j "response"))
      as [|s3] eqn:E3; [discriminate|].
    destruct (col_score (field j "score")); [discriminate|].
    destruct (col_latency_ms (field j "latency_ms")) as [|n] eqn:E4;
      [discriminate|].
    intros _.
    apply orb_true_iff in Hmiss as [Hmiss|H4].
    + apply orb_true_iff in Hmiss as [Hmiss|H3];
        [|exact (col_text_missing _ _ _ H3 E3)].
      apply orb_true_iff in Hmiss as [H1|H2];
        [exact (col_text_missing _ _ _ H1 E1)
        |exact (col_text_missing _ _ _ H2 E2)].
    + destruct (field j "latency_ms") as [[| | | | |]|];
        cbn in H4, E4; discriminate.
Qed.

Lemma missing_required_field_is_500_witness :
  status (response (handler Sample.env
            (Sample.db (Sample.config always 100 2) Sample.one_today)
            (with_body Sample.req
               (Parsed (JObj [("interaction_id", JStr "int_44");
                              ("prompt", JStr "ping");
                              ("latency_ms", JNum 12)]))))) = 500.
Proof.
  pose (j := JObj [("interaction_id", JStr "int_44");
                   ("prompt", JStr "ping");
                   ("latency_ms", JNum 12)]).
  pose (db := Sample.db (Sample.config always 100 2) Sample.one_today).
  assert (Ha : authenticated Sample.env (with_body Sample.req (Parsed j))
                 Sample.alice) by evaluate.
  assert (Hc : configured Sample.env db Sample.alice
                 (Sample.config always 100 2)) by evaluate.
  assert (Hs : passes_sampling Sample.env (Sample.config always 100 2)
               = true) by evaluate.
  assert (Hq : limit_reached (count_today Sample.env db Sample.alice)
                 (EvalConfigs.max_eval_per_day
                    (Sample.config always 100 2)) = false) by evaluate.
  assert (Hj : j <> JNull) by discriminate.
  assert (Hm : missing (field j "interaction_id")
               || missing (field j "prompt")
               || missing (field j "response")
               || missing (field j "latency_ms") = true) by evaluate.
  exact (proj1 (missing_required_field_is_500 Sample.env db
                  (with_body Sample.req (Parsed j)) Sample.alice
                  (Sample.config always 100 2) j
                  (conj Ha (conj Hc (conj Hs Hq))) eq_refl Hj Hm)).
Defined.

(** * Account creation *)

Lemma existsb_filter_nil {A} (f : A -> bool) (l : list A) :
  existsb f l = false -> filter f l = [].
Proof.
  induction l as [|x l IH]; [reflexivity|].
  cbn [existsb filter]. intros H. apply orb_false_iff in H as [Hx Hl].
  rewrite Hx. now apply IH.
Qed.

(** What a successful run of the trigger leaves. *)
Lemma handle_new_user_inr e s new s' :
  handle_new_user e s new = inr s' ->
  existsb (fun c => (EvalConfigs.user_id c =? AuthUsers.id new)%string)
          (eval_configs (tables s)) = false /\
  has_role s (AuthUsers.id new) role_user = false /\
  eval_configs (tables s')
    = (eval_configs (tables s)
       ++ [default_config e (AuthUsers.id new)])%list /\
  evaluations (tables s') = evaluations (tables s) /\
  user_roles s'
    = (user_roles s
       ++ [{| UserRoles.id := role_uuid e;
              UserRoles.user_id := AuthUsers.id new;
              UserRoles.role := role_user |}])%list.
Proof.
  unfold handle_new_user.
  destruct (AuthUsers.email new); [|discriminate].
  destruct (existsb _ (profiles s)); [discriminate|].
  destruct (existsb (fun c => (EvalConfigs.id c =? config_uuid e)%string)
                    (eval_configs (tables s))); [discriminate|].
  destruct (existsb (fun c => (EvalConfigs.user_id c
                               =? AuthUsers.id new)%string)
                    (eval_configs (tables s))); [discriminate|].
  destruct (existsb _ (user_roles s)); [discriminate|].
  destruct (has_role s (AuthUsers.id new) role_user); [discriminate|].
  intros H. injection H as <-. cbn. repeat split; reflexivity.
Qed.

(** X13. After [handle_new_user] has run for a new account, the config
    lookup of that user gives the default policy (always, rate 100, no
    obfuscation, 10000 per day); the lookups of all other users and the
    evaluation records are as before. *)
Theorem new_user_gets_default_config e s new s' env :
  handle_new_user e s new = inr s' ->
  config_fault env = None ->
  data (select_config env (tables s') (AuthUsers.id new))
    = Some (default_config e (AuthUsers.id new)) /\
  (forall uid, uid <> AuthUsers.id new ->
     select_config env (tables s') uid = select_config env (tables s) uid) /\
  evaluations (tables s') = evaluations (tables s).
Proof.
  intros H Hf.
  destruct (handle_new_user_inr _ _ _ _ H) as (Hnone & _ & Hc & He & _).
  unfold select_config. rewrite Hf, Hc. split; [|split; [|exact He]].
  - rewrite filter_app, (existsb_filter_nil _ _ Hnone).
    cbn [filter app default_config EvalConfigs.user_id].
    now rewrite String.eqb_refl.
  - intros uid Hne. rewrite filter_app.
    cbn [filter default_config EvalConfigs.user_id].
    destruct (String.eqb_spec (AuthUsers.id new) uid) as [E|_];
      [congruence|].
    now rewrite app_nil_r.
Qed.

Lemma new_user_gets_default_config_witness :
  data (select_config Sample.env (tables SampleSignup.with_alice)
          (AuthUsers.id SampleSignup.new_alice))
  = Some (default_config SampleSignup.trigger_env
            (AuthUsers.id SampleSignup.new_alice)).
Proof.
  assert (H : handle_new_user SampleSignup.trigger_env SampleSignup.empty
                SampleSignup.new_alice = inr SampleSignup.with_alice)
    by (vm_compute; reflexivity).
  exact (proj1 (new_user_gets_default_config _ _ _ _ Sample.env H eq_refl)).
Defined.

(** X14. A user created by the trigger can submit at once: with a
    working config read, her calls are never answered 400 for a missing
    config and never skipped, no draw is taken, and as long as fewer
    than 10000 of her records are counted for the day the call gets to
    the body. *)
Theorem new_user_can_submit e s new s' env req u :
  handle_new_user e s new = inr s' ->
  config_fault env = None ->
  authenticated env req u ->
  Auth.id u = AuthUsers.id new ->
  status (response (handler env (tables s') req)) <> 400 /\
  status (response (handler env (tables s') req)) <> 200 /\
  ~ In ev_Math_random (events (handler env (tables s') req)) /\
  (count_since (Auth.id u) (today env) (tables s') < 10000 ->
   In ev_req_json (events (handler env (tables s') req))).
Proof.
  intros H Hf Ha Hu.
  destruct (handle_new_user_inr _ _ _ _ H) as (Hnone & _ & Hcfg & _ & _).
  assert (Hc : configured env (tables s') u
                 (default_config e (AuthUsers.id new))).
  { unfold configured, select_config. rewrite Hf, Hcfg, Hu.
    rewrite filter_app, (existsb_filter_nil _ _ Hnone).
    cbn [filter app default_config EvalConfigs.user_id].
    now rewrite String.eqb_refl. }
  assert (Hs : passes_sampling env (default_config e (AuthUsers.id new))
               = true) by reflexivity.
  assert (Hg : ~ In ev_Math_random
                 (gate_events env req u
                    (default_config e (AuthUsers.id new)))).
  { intros Hin. apply gate_events_spec in Hin.
    destruct Hin as [E|[E|[[_ E]|E]]]; discriminate. }
  destruct (past_sampling env (tables s') req u _ Ha Hc Hs)
    as [[Hq E]|[Hr [[msg E]|(j & _ & _ & E)]]]; rewrite E.
  - project. repeat split; try discriminate; [exact Hg|].
    intros Hlt. exfalso.
    unfold count_today, select_count in Hq.
    destruct (count_fault env); [discriminate Hq|].
    cbn [count limit_reached default_config EvalConfigs.max_eval_per_day]
      in Hq.
    apply Z.leb_le in Hq. unfold count_since in Hlt. lia.
  - project. repeat split; try discriminate.
    + intros Hin. apply in_app_or in Hin.
      destruct Hin as [Hin|[Hin|[Hin|[]]]];
        [now apply Hg|discriminate|discriminate].
    + intros _. apply in_or_app. right. now left.
  - unfold after_insert.
    destruct (new_row env (tables s') (insert_object u j)); project;
      (split; [discriminate|]); (split; [discriminate|]);
      (split; [|intros _; apply in_or_app; right; now left]);
      intros Hin; apply in_app_or in Hin;
      (destruct Hin as [Hin|[Hin|[Hin|[Hin|[]]]]];
       [now apply Hg|discriminate|discriminate|discriminate]).
Qed.

Lemma new_user_can_submit_witness :
  status (response (handler Sample.env (tables SampleSignup.with_alice)
                      Sample.req)) <> 400.
Proof.
  assert (H : handle_new_user SampleSignup.trigger_env SampleSignup.empty
                SampleSignup.new_alice = inr SampleSignup.with_alice)
    by (vm_compute; reflexivity).
  assert (Ha : authenticated Sample.env Sample.req Sample.alice)
    by evaluate.
  exact (proj1 (new_user_can_submit _ _ _ _ Sample.env Sample.req
                  Sample.alice H eq_refl Ha eq_refl)).
Defined.

Lemma has_role_app s rows uid r :
  existsb (fun x => (UserRoles.user_id x =? uid)%string
                    && app_role_eqb (UserRoles.role x) r)
          (user_roles s ++ rows)
  = has_role s uid r
    || existsb (fun x => (UserRoles.user_id x =? uid)%string
                         && app_role_eqb (UserRoles.role x) r) rows.
Proof. unfold has_role. apply existsb_app. Qed.

(** X15. The trigger grants the new account the role [user] and nothing
    else: afterwards [has_role] holds for [user], is unchanged for
    [admin], and is unchanged for every other account. *)
Theorem new_user_gets_user_role_only e s new s' :
  handle_new_user e s new = inr s' ->
  has_role s' (AuthUsers.id new) role_user = true /\
  has_role s' (AuthUsers.id new) role_admin
    = has_role s (AuthUsers.id new) role_admin /\
  (forall uid r, uid <> AuthUsers.id new ->
                 has_role s' uid r = has_role s uid r).
Proof.
  intros H.
  destruct (handle_new_user_inr _ _ _ _ H) as (_ & _ & _ & _ & Hr).
  unfold has_role at 1 2 4. rewrite Hr, !has_role_app.
  cbn [existsb UserRoles.user_id UserRoles.role app_role_eqb].
  rewrite String.eqb_refl. cbn [andb orb].
  split; [apply orb_true_r|]. split; [apply orb_false_r|].
  intros uid r Hne. rewrite has_role_app.
  cbn [existsb UserRoles.user_id UserRoles.role].
  destruct (String.eqb_spec (AuthUsers.id new) uid) as [E|_];
    [congruence|].
  cbn [andb orb]. apply orb_false_r.
Qed.

Lemma new_user_gets_user_role_only_witness :
  has_role SampleSignup.with_alice (AuthUsers.id SampleSignup.new_alice)
    role_admin
  = has_role SampleSignup.empty (AuthUsers.id SampleSignup.new_alice)
      role_admin.
Proof.
  assert (H : handle_new_user SampleSignup.trigger_env SampleSignup.empty
                SampleSignup.new_alice = inr SampleSignup.with_alice)
    by (vm_compute; reflexivity).
  exact (proj1 (proj2 (new_user_gets_user_role_only _ _ _ _ H))).
Defined.

(** * The data generators *)

Lemma floor_between (a b : Z) (x : Q) :
  (inject_Z a <= x)%Q -> (x < inject_Z b)%Q -> a <= Qfloor x < b.
Proof.
  intros Ha Hb. split.
  - rewrite <- (Qfloor_Z a). now apply Qfloor_resp_le.
  - rewrite Zlt_Qlt. apply Qle_lt_trans with x; [apply Qfloor_le|assumption].
Qed.

Lemma round_between (a b : Z) (x : Q) :
  (inject_Z a <= x)%Q -> (x <= inject_Z b)%Q -> a <= Math_round x <= b.
Proof.
  intros Ha Hb. unfold Math_round.
  assert (H : a <= Qfloor (x + (1 # 2)) < b + 1); [|lia].
  apply floor_between.
  - lra.
  - rewrite inject_Z_plus. change (inject_Z 1) with 1%Q. lra.
Qed.

Lemma floor_draw (n : Z) (x : Q) :
  (0 <= x)%Q -> (x < inject_Z n)%Q -> 0 <= Math_floor x < n.
Proof. intros H0 Hn. now apply floor_between. Qed.

(** X16. [randomChoice] on a non-empty array always gives one of its
    elements (the index never leaves the array); on the empty array it
    gives [undefined]. *)
Theorem randomChoice_in_array {A} (arr : list A) (r : Q) :
  valid_draw r ->
  (arr <> [] -> exists x, randomChoice arr r = Some x /\ In x arr) /\
  (arr = [] -> randomChoice arr r = None).
Proof.
  intros [H0 H1]. split.
  - intros Hne. unfold randomChoice.
    set (n := Z.of_nat (List.length arr)).
    assert (Hn : 0 < n).
    { unfold n. destruct arr; [congruence|cbn [List.length]; lia]. }
    assert (Hx : 0 <= Math_floor (r * inject_Z n) < n).
    { apply floor_draw.
      - apply Qmult_le_0_compat; [assumption|].
        change 0%Q with (inject_Z 0). rewrite <- Zle_Qle. lia.
      - setoid_replace (inject_Z n) with (1 * inject_Z n)%Q at 2 by ring.
        apply Qmult_lt_compat_r; [|assumption].
        change 0%Q with (inject_Z 0). rewrite <- Zlt_Qlt. lia. }
    destruct (Z.ltb_spec (Math_floor (r * inject_Z n)) 0); [lia|].
    destruct (nth_error arr (Z.to_nat (Math_floor (r * inject_Z n))))
      as [x|] eqn:E.
    + exists x. split; [reflexivity|]. eapply nth_error_In. exact E.
    + apply nth_error_None in E. unfold n in *. lia.
  - intros ->. unfold randomChoice. cbn [List.length Z.of_nat].
    destruct (Math_floor (r * inject_Z 0) <? 0); [reflexivity|].
    now destruct (Z.to_nat _).
Qed.

Lemma randomChoice_in_array_witness :
  exists x, randomChoice (getFlagsForScenario "edge-cases") (99 # 100)
            = Some x /\ In x (getFlagsForScenario "edge-cases").
Proof.
  assert (Hd : valid_draw (99 # 100)) by evaluate.
  apply (proj1 (randomChoice_in_array
                  (getFlagsForScenario "edge-cases") (99 # 100) Hd)).
  discriminate.
Defined.

(** X17. [randomDateWithin(days)] never gives a date in the future and
    never one older than [days] days when [days] is positive; for a
    negative [days] the date is not before now. *)
Theorem randomDateWithin_window now days r :
  valid_draw r ->
  (0 <= days ->
   now - days * ms_per_day <= randomDateWithin now days r <= now) /\
  (0 < days -> now - days * ms_per_day < randomDateWithin now days r) /\
  (days <= 0 -> now <= randomDateWithin now days r).
Proof.
  intros [H0 H1]. unfold randomDateWithin, Math_floor, ms_per_day.
  set (x := (r * inject_Z days * 24 * 60 * 60 * 1000)%Q).
  assert (Ex : (x == r * (inject_Z days * 86400000))%Q)
    by (unfold x; ring).
  pose proof (Qfloor_le x) as Hlo. pose proof (Qlt_floor x) as Hhi.
  assert (Hcases :
    (0 <= days -> 0 <= Qfloor x <= days * 86400000) /\
    (0 < days -> Qfloor x < days * 86400000) /\
    (days <= 0 -> Qfloor x <= 0)); [|lia].
  assert (Hd : (inject_Z (days * 86400000) == inject_Z days * 86400000)%Q)
    by (rewrite inject_Z_mult; reflexivity).
  split; [|split].
  - intros Hdays.
    assert (Hnn : (0 <= inject_Z days * 86400000)%Q).
    { rewrite <- Hd. change 0%Q with (inject_Z 0). rewrite <- Zle_Qle. lia. }
    assert (Hx0 : (0 <= x)%Q) by (rewrite Ex; nra).
    assert (Hx1 : (x <= inject_Z (days * 86400000))%Q)
      by (rewrite Ex, Hd; nra).
    split.
    + rewrite <- (Qfloor_Z 0). now apply Qfloor_resp_le.
    + rewrite <- (Qfloor_Z (days * 86400000)). now apply Qfloor_resp_le.
  - intros Hdays.
    assert (Hpos : (0 < inject_Z days * 86400000)%Q).
    { rewrite <- Hd. change 0%Q with (inject_Z 0). rewrite <- Zlt_Qlt. lia. }
    assert (Hx1 : (x < inject_Z (days * 86400000))%Q)
      by (rewrite Ex, Hd; nra).
    rewrite Zlt_Qlt. now apply Qle_lt_trans with x.
  - intros Hdays.
    assert (Hnp : (inject_Z days * 86400000 <= 0)%Q).
    { rewrite <- Hd. change 0%Q with (inject_Z 0). rewrite <- Zle_Qle. lia. }
    assert (Hx0 : (x <= 0)%Q) by (rewrite Ex; nra).
    rewrite <- (Qfloor_Z 0). now apply Qfloor_resp_le.
Qed.

Lemma randomDateWithin_window_witness :
  Sample.ten_am - 30 * ms_per_day
  <= randomDateWithin Sample.ten_am 30 (1 # 3) <= Sample.ten_am.
Proof.
  assert (Hd : valid_draw (1 # 3)) by evaluate.
  apply (proj1 (randomDateWithin_window Sample.ten_am 30 (1 # 3) Hd)).
  discriminate.
Defined.

Lemma hundredths_between (a k : Z) :
  a <= k <= 100 ->
  (a # 100 <= inject_Z k / 100 /\ inject_Z k / 100 <= 1)%Q.
Proof.
  intros [Ha Hb]. unfold Qle, Qdiv, Qmult, Qinv, inject_Z.
  cbn [Qnum Qden]. split; lia.
Qed.

(** A value with two decimals is stored as it is. *)
Lemma round2_hundredths (k : Z) :
  round2 (inject_Z k / 100) = k.
Proof.
  unfold round2, Qdiv, Qmult, Qinv, inject_Z. cbn [Qnum Qden].
  replace (k * 1 * 100) with (k * 100) by lia.
  change (Z.pos (1 * 100)) with 100.
  destruct (Z.abs_spec (k * 100)) as [[Hk ->]|[Hk ->]].
  - replace (2 * (k * 100) + 100) with (100 + k * (2 * 100)) by lia.
    rewrite Z.div_add by lia. change (100 / (2 * 100)) with 0.
    destruct (Z.sgn_spec (k * 100)) as [[? ->]|[[? ->]|[? ->]]]; lia.
  - replace (2 * - (k * 100) + 100) with (100 + (- k) * (2 * 100)) by lia.
    rewrite Z.div_add by lia. change (100 / (2 * 100)) with 0.
    destruct (Z.sgn_spec (k * 100)) as [[? ->]|[[? ->]|[? ->]]]; lia.
Qed.

Ltac draw_bounds :=
  unfold inject_Z;
  repeat match goal with
         | H : valid_draw _ |- _ => destruct H
         end;
  (lia || lra).

Lemma score_between (lo : Z) (x : Q) :
  (inject_Z lo <= x * 100)%Q -> (x * 100 <= 100)%Q -> 0 <= lo ->
  (lo # 100 <= two_decimals x /\ two_decimals x <= 1)%Q /\
  col_score (Some (JNum (two_decimals x)))
    = inr (Some (Qred (Math_round (x * 100) # 100))).
Proof.
  intros Hlo Hhi H0. unfold two_decimals.
  assert (Hk : lo <= Math_round (x * 100) <= 100)
    by (apply round_between; [assumption|exact Hhi]).
  pose proof (hundredths_between lo _ Hk) as Hb.
  split; [exact Hb|].
  rewrite col_score_unit.
  - now rewrite round2_hundredths.
  - destruct Hb as [Hb1 Hb2]. split; [|exact Hb2].
    apply Qle_trans with (lo # 100); [|exact Hb1].
    unfold Qle. cbn [Qnum Qden]. lia.
Qed.

(** X18. Whatever the scenario name and the draws, the generated score,
    latency and redaction count are values the evaluation table takes:
    the score lies in [0, 1] and is stored with its two decimals, the
    latency and the count are non-negative integers of the column type,
    and the pool of flags to choose from is never empty. *)
Theorem generated_values_fit_table scenario d1 d2 :
  valid_draw d1 -> valid_draw d2 ->
  (exists k,
     0 <= k <= 100 /\
     col_score (Some (JNum (generateScoreForScenario scenario d1 d2)))
       = inr (Some (Qred (k # 100)))) /\
  (0 <= generateLatencyForScenario scenario d1 d2 /\
   col_latency_ms
     (Some (JNum (inject_Z (generateLatencyForScenario scenario d1 d2))))
     = inr (generateLatencyForScenario scenario d1 d2)) /\
  (0 <= generatePIIForScenario scenario d1 d2 /\
   col_pii_tokens_redacted
     (Some (JNum (inject_Z (generatePIIForScenario scenario d1 d2))))
     = inr (Some (generatePIIForScenario scenario d1 d2))) /\
  getFlagsForScenario scenario <> [].
Proof.
  intros Hd1 Hd2.
  assert (Hscore : forall lo x,
            (inject_Z lo <= x * 100)%Q -> (x * 100 <= 100)%Q -> 0 <= lo ->
            exists k, 0 <= k <= 100 /\
              col_score (Some (JNum (two_decimals x)))
              = inr (Some (Qred (k # 100)))).
  { intros lo x H1 H2 H3. exists (Math_round (x * 100)). split.
    - assert (lo <= Math_round (x * 100) <= 100)
        by (apply round_between; [assumption|exact H2]). lia.
    - now apply (score_between lo). }
  assert (Hlat : forall n, 0 <= n <= 5999 ->
            0 <= n /\
            col_latency_ms (Some (JNum (inject_Z n))) = inr n).
  { intros n Hn. split; [lia|]. unfold col_latency_ms.
    rewrite json_int_inject_Z by (unfold int4_min, int4_max; lia).
    destruct (Z.leb_spec 0 n); [reflexivity|lia]. }
  assert (Hpii : forall n, 0 <= n <= 20 ->
            0 <= n /\
            col_pii_tokens_redacted (Some (JNum (inject_Z n)))
            = inr (Some n)).
  { intros n Hn. split; [lia|]. unfold col_pii_tokens_redacted.
    now rewrite json_int_inject_Z by (unfold int4_min, int4_max; lia). }
  assert (Hfloor : forall r n,
            valid_draw r -> 0 < n ->
            0 <= Math_floor (r * (n # 1)) < n).
  { intros r n [H0 H1] Hn. change (n # 1) with (inject_Z n).
    apply floor_draw.
    - apply Qmult_le_0_compat; [assumption|].
      change 0%Q with (inject_Z 0). rewrite <- Zle_Qle. lia.
    - setoid_replace (inject_Z n) with (1 * inject_Z n)%Q at 2 by ring.
      apply Qmult_lt_compat_r; [|assumption].
      change 0%Q with (inject_Z 0). rewrite <- Zlt_Qlt. lia. }
  unfold generateScoreForScenario, generateLatencyForScenario,
    generatePIIForScenario, getFlagsForScenario.
  destruct (scenario =? "stress-test")%string;
    [|destruct (scenario =? "edge-cases")%string;
      [|destruct (scenario =? "performance-test")%string]].
  - split; [apply (Hscore 0); draw_bounds|].
    pose proof (Hfloor d1 2000 Hd1 eq_refl).
    pose proof (Hfloor d1 15 Hd1 eq_refl).
    split; [apply Hlat; lia|]. split; [apply Hpii; lia|discriminate].
  - pose proof (Hfloor d2 100 Hd2 eq_refl).
    pose proof (Hfloor d2 5000 Hd2 eq_refl).
    pose proof (Hfloor d2 20 Hd2 eq_refl).
    split; [destruct (below d1 (7 # 10));
            [apply (Hscore 10)|apply (Hscore 50)]; draw_bounds|].
    split; [destruct (below d1 (3 # 10)); apply Hlat; lia|].
    split; [destruct (below d1 (3 # 10)); apply Hpii; lia|discriminate].
  - pose proof (Hfloor d1 200 Hd1 eq_refl).
    pose proof (Hfloor d1 3 Hd1 eq_refl).
    split; [apply (Hscore 80); draw_bounds|].
    split; [apply Hlat; lia|]. split; [apply Hpii; lia|discriminate].
  - pose proof (Hfloor d2 200 Hd2 eq_refl).
    pose proof (Hfloor d2 750 Hd2 eq_refl).
    pose proof (Hfloor d2 8 Hd2 eq_refl).
    split; [destruct (below d1 (7 # 10));
            [apply (Hscore 70)|apply (Hscore 30)]; draw_bounds|].
    split; [destruct (below d1 (8 # 10)); apply Hlat; lia|].
    split; [destruct (below d1 (6 # 10)); apply Hpii; lia|discriminate].
Qed.

Lemma generated_values_fit_table_witness :
  getFlagsForScenario "no such scenario" <> [].
Proof.
  assert (Hd : valid_draw (1 # 2)) by evaluate.
  exact (proj2 (proj2 (proj2
           (generated_values_fit_table "no such scenario"
              (1 # 2) (1 # 2) Hd Hd)))).
Defined.

Lemma floor_of_draw (r : Q) (n : Z) :
  valid_draw r -> 0 < n -> 0 <= Math_floor (r * (n # 1)) < n.
Proof.
  intros [H0 H1] Hn. change (n # 1) with (inject_Z n). apply floor_draw.
  - apply Qmult_le_0_compat; [assumption|].
    change 0%Q with (inject_Z 0). rewrite <- Zle_Qle. lia.
  - setoid_replace (inject_Z n) with (1 * inject_Z n)%Q at 2 by ring.
    apply Qmult_lt_compat_r; [|assumption].
    change 0%Q with (inject_Z 0). rewrite <- Zlt_Qlt. lia.
Qed.

Lemma Qle_and_trans_lo (hi' : Z) (lo : Z) (s : Q) :
  (lo # 100 <= hi' # 100)%Q ->
  (hi' # 100 <= s /\ s <= 1)%Q -> (lo # 100 <= s /\ s <= 1)%Q.
Proof.
  intros H [H1 H2]. split; [|exact H2]. now apply Qle_trans with (hi' # 100).
Qed.

Lemma score_range (lo : Z) (x : Q) :
  (inject_Z lo <= x * 100)%Q -> (x * 100 <= 100)%Q ->
  (lo # 100 <= two_decimals x /\ two_decimals x <= 1)%Q.
Proof.
  intros Hlo Hhi. unfold two_decimals. apply hundredths_between.
  now apply round_between.
Qed.

(** X19. The ranges of each scenario.  Stress test: scores in [0, 1],
    latencies 10..2009, counts 0..14.  Edge cases: scores in
    [0.1, 1], latencies 10..109 or 1000..5999, counts 0..20.
    Performance test: scores in [0.8, 1], latencies 20..219, counts
    0..2.  Any other name is treated as the realistic scenario: scores
    in [0.3, 1], latencies 50..999, counts 0..7. *)
Theorem scenario_ranges d1 d2 :
  valid_draw d1 -> valid_draw d2 ->
  ((0 # 100 <= generateScoreForScenario "stress-test" d1 d2 /\
    generateScoreForScenario "stress-test" d1 d2 <= 1)%Q /\
   10 <= generateLatencyForScenario "stress-test" d1 d2 <= 2009 /\
   0 <= generatePIIForScenario "stress-test" d1 d2 <= 14)
  /\
  ((10 # 100 <= generateScoreForScenario "edge-cases" d1 d2 /\
    generateScoreForScenario "edge-cases" d1 d2 <= 1)%Q /\
   (10 <= generateLatencyForScenario "edge-cases" d1 d2 <= 109 \/
    1000 <= generateLatencyForScenario "edge-cases" d1 d2 <= 5999) /\
   0 <= generatePIIForScenario "edge-cases" d1 d2 <= 20)
  /\
  ((80 # 100 <= generateScoreForScenario "performance-test" d1 d2 /\
    generateScoreForScenario "performance-test" d1 d2 <= 1)%Q /\
   20 <= generateLatencyForScenario "performance-test" d1 d2 <= 219 /\
   0 <= generatePIIForScenario "performance-test" d1 d2 <= 2)
  /\
  (forall scenario,
     scenario <> "stress-test" -> scenario <> "edge-cases" ->
     scenario <> "performance-test" ->
     (30 # 100 <= generateScoreForScenario scenario d1 d2 /\
      generateScoreForScenario scenario d1 d2 <= 1)%Q /\
     50 <= generateLatencyForScenario scenario d1 d2 <= 999 /\
     0 <= generatePIIForScenario scenario d1 d2 <= 7).
Proof.
  intros Hd1 Hd2.
  assert (E1 : ("edge-cases" =? "stress-test")%string = false)
    by reflexivity.
  assert (E2 : ("performance-test" =? "stress-test")%string = false)
    by reflexivity.
  assert (E3 : ("performance-test" =? "edge-cases")%string = false)
    by reflexivity.
  unfold generateScoreForScenario, generateLatencyForScenario,
    generatePIIForScenario.
  split; [|split; [|split]].
  - rewrite !String.eqb_refl.
    pose proof (floor_of_draw d1 2000 Hd1 eq_refl).
    pose proof (floor_of_draw d1 15 Hd1 eq_refl).
    split; [apply score_range; draw_bounds|]. split; lia.
  - rewrite !E1, !String.eqb_refl.
    pose proof (floor_of_draw d2 100 Hd2 eq_refl).
    pose proof (floor_of_draw d2 5000 Hd2 eq_refl).
    pose proof (floor_of_draw d2 20 Hd2 eq_refl).
    split; [|split].
    + destruct (below d1 (7 # 10)).
      * apply score_range; draw_bounds.
      * apply (Qle_and_trans_lo 50); [discriminate|].
        apply score_range; draw_bounds.
    + destruct (below d1 (3 # 10)); [left|right]; lia.
    + destruct (below d1 (3 # 10)); lia.
  - rewrite !E2, !E3, !String.eqb_refl.
    pose proof (floor_of_draw d1 200 Hd1 eq_refl).
    pose proof (floor_of_draw d1 3 Hd1 eq_refl).
    split; [apply score_range; draw_bounds|]. split; lia.
  - intros scenario N1 N2 N3.
    apply String.eqb_neq in N1, N2, N3. rewrite !N1, !N2, !N3.
    pose proof (floor_of_draw d2 200 Hd2 eq_refl).
    pose proof (floor_of_draw d2 750 Hd2 eq_refl).
    pose proof (floor_of_draw d2 8 Hd2 eq_refl).
    split; [|split].
    + destruct (below d1 (7 # 10)).
      * apply (Qle_and_trans_lo 70); [discriminate|].
        apply score_range; draw_bounds.
      * apply score_range; draw_bounds.
    + destruct (below d1 (8 # 10)); lia.
    + destruct (below d1 (6 # 10)); lia.
Qed.

Lemma scenario_ranges_witness :
  20 <= generateLatencyForScenario "performance-test" (999 # 1000) 0 <= 219.
Proof.
  assert (Hd1 : valid_draw (999 # 1000)) by evaluate.
  assert (Hd2 : valid_draw 0) by evaluate.
  exact (proj1 (proj2 (proj1 (proj2 (proj2
           (scenario_ranges (999 # 1000) 0 Hd1 Hd2)))))).
Defined.

(** * Bulk generation in batches *)

Lemma ceil_div_zero b : ceil_div 0 b = 0.
Proof. unfold ceil_div. cbn [Z.opp]. now rewrite Zdiv_0_l. Qed.

Lemma ceil_div_step R b :
  0 < R -> 0 < b ->
  ceil_div R b = 1 + ceil_div (R - Z.min b R) b.
Proof.
  intros HR Hb. unfold ceil_div.
  destruct (Z.min_spec b R) as [[Hlt ->]|[Hle ->]].
  - replace (- (R - b)) with (- R + 1 * b) by lia.
    rewrite Z.div_add by lia. lia.
  - replace (R - R) with 0 by lia. cbn [Z.opp]. rewrite Z.div_0_l by lia.
    assert (- R / b = -1); [|lia].
    symmetry. apply (Z.div_unique (- R) b (-1) (b - R)); lia.
Qed.

Lemma ceil_div_pos R b : 0 < R -> 0 < b -> 0 < ceil_div R b.
Proof.
  intros HR Hb. unfold ceil_div.
  assert (- R / b < 0); [|lia].
  apply Z.div_lt_upper_bound; lia.
Qed.

Lemma below_ceil_div k T b :
  0 < b -> k < ceil_div T b -> k * b < T.
Proof.
  intros Hb Hk. unfold ceil_div in Hk.
  pose proof (Z.div_mod (- T) b ltac:(lia)) as Hdm.
  pose proof (Z.mod_pos_bound (- T) b Hb) as Hm.
  nia.
Qed.

(** The loop, from a point where [R] records remain and every insertion
    succeeds. *)
Lemma bulk_loop_all ok T b : (forall i, ok i = true) -> 0 < b ->
  forall fuel idx ins,
    0 <= T - ins ->
    Z.of_nat fuel = ceil_div (T - ins) b ->
    let r := bulk_loop ok T b fuel idx ins in
    failed_at r = None /\ inserted r = T /\ sum (batches r) = T - ins /\
    List.length (batches r) = fuel /\
    Forall (fun n => 0 < n <= b) (batches r) /\
    (forall i, (S i < List.length (batches r))%nat ->
               nth i (batches r) 0 = b).
Proof.
  intros Hok Hb. induction fuel as [|fuel IH]; intros idx ins HR Hfuel.
  - cbn [bulk_loop batches inserted failed_at sum fold_right List.length].
    assert (T - ins = 0).
    { destruct (Z.eq_dec (T - ins) 0) as [E|N]; [exact E|].
      pose proof (ceil_div_pos (T - ins) b ltac:(lia) Hb). lia. }
    repeat split; try lia; try constructor; intros i Hi; cbn in Hi; lia.
  - assert (Hpos : 0 < T - ins).
    { destruct (Z.eq_dec (T - ins) 0) as [E|N]; [|lia].
      rewrite E, ceil_div_zero in Hfuel. lia. }
    cbn [bulk_loop]. rewrite Hok.
    cbn [batches inserted failed_at].
    set (cur := Z.min b (T - ins)).
    assert (Hcur : 0 < cur <= b) by (unfold cur; lia).
    assert (Hrest : Z.of_nat fuel = ceil_div (T - (ins + cur)) b).
    { rewrite (ceil_div_step (T - ins) b Hpos Hb) in Hfuel.
      fold cur in Hfuel. replace (T - (ins + cur)) with (T - ins - cur)
        by lia. lia. }
    destruct (IH (idx + 1) (ins + cur) ltac:(unfold cur; lia) Hrest)
      as (Hf & Hi & Hs & Hl & Hall & Hfull).
    split; [exact Hf|]. split; [exact Hi|].
    split; [cbn [sum fold_right] in *; unfold sum in Hs; lia|].
    split; [cbn [List.length]; now rewrite Hl|].
    split; [constructor; assumption|].
    intros [|i] Hlen; cbn [nth].
    + (* the first batch is full when another one follows *)
      cbn [List.length] in Hlen.
      destruct fuel as [|fuel']; [rewrite Hl in Hlen; lia|].
      assert (0 < T - (ins + cur)).
      { destruct (Z.eq_dec (T - (ins + cur)) 0) as [E|N];
          [|unfold cur in *; lia].
        rewrite E, ceil_div_zero in Hrest. lia. }
      unfold cur in *. lia.
    + apply Hfull. cbn [List.length] in Hlen. lia.
Qed.

(** The option is used when it is set; otherwise the first account
    listed is. *)
Lemma targetUserId_spec userId listUsers id :
  targetUserId userId listUsers = target_user id <->
  (exists given, userId = Some given /\ given <> EmptyString /\ id = given)
  \/
  ((userId = None \/ userId = Some EmptyString) /\
   listUsers_error listUsers = None /\
   exists rest, users listUsers = id :: rest).
Proof.
  unfold targetUserId. split.
  - intros H. destruct userId as [given|].
    + destruct (String.eqb_spec given EmptyString) as [->|Hne].
      * right. split; [now right|].
        destruct (listUsers_error listUsers); [discriminate|].
        split; [reflexivity|].
        destruct (users listUsers) as [|i rest]; [discriminate|].
        injection H as ->. now exists rest.
      * left. exists given. injection H as ->. now repeat split.
    + right. split; [now left|].
      destruct (listUsers_error listUsers); [discriminate|].
      split; [reflexivity|].
      destruct (users listUsers) as [|i rest]; [discriminate|].
      injection H as ->. now exists rest.
  - intros [(given & -> & Hne & ->)|([->| ->] & -> & rest & ->)].
    + apply String.eqb_neq in Hne. now rewrite Hne.
    + reflexivity.
    + reflexivity.
Qed.

(** X20. When the user is given or found and every insertion succeeds,
    the batches of [generateBulkData] add up to [totalCount]: there are
    ceil(totalCount / batchSize) of them, each holds between 1 and
    [batchSize] records, and all but the last hold exactly
    [batchSize].  The user is the [userId] option when it is set, and
    otherwise the first account listed; when the listing fails the error
    is thrown, and when it is empty the run ends, in both cases before
    any batch. *)
Theorem bulk_batches_cover_total userId listUsers ok totalCount batchSize :
  0 <= totalCount -> 0 < batchSize ->
  (forall i, ok i = true) ->
  (forall id,
     (exists given,
        userId = Some given /\ given <> EmptyString /\ id = given) \/
     ((userId = None \/ userId = Some EmptyString) /\
      listUsers_error listUsers = None /\
      exists rest, users listUsers = id :: rest) ->
     exists o,
       generateBulkData userId listUsers ok totalCount batchSize
         = generated id o /\
       failed_at o = None /\
       inserted o = totalCount /\
       sum (batches o) = totalCount /\
       Z.of_nat (List.length (batches o)) = ceil_div totalCount batchSize /\
       Forall (fun n => 0 < n <= batchSize) (batches o) /\
       (forall i, (S i < List.length (batches o))%nat ->
                  nth i (batches o) 0 = batchSize))
  /\
  (userId = None \/ userId = Some EmptyString ->
   (forall error,
      listUsers_error listUsers = Some error ->
      generateBulkData userId listUsers ok totalCount batchSize
        = lookup_thrown error) /\
   (listUsers_error listUsers = None -> users listUsers = [] ->
    generateBulkData userId listUsers ok totalCount batchSize
      = no_users_found)).
Proof.
  intros HT Hb Hok. split.
  - intros id Ht. apply targetUserId_spec in Ht.
    unfold generateBulkData. rewrite Ht.
    eexists. split; [reflexivity|].
    assert (Hc : 0 <= ceil_div totalCount batchSize).
    { destruct (Z.eq_dec totalCount 0) as [->|N].
      - rewrite ceil_div_zero. lia.
      - pose proof (ceil_div_pos totalCount batchSize ltac:(lia) Hb). lia. }
    destruct (bulk_loop_all ok totalCount batchSize Hok Hb
                (Z.to_nat (ceil_div totalCount batchSize)) 0 0)
      as (Hf & Hi & Hs & Hl & Hall & Hfull).
    + lia.
    + rewrite Z.sub_0_r. lia.
    + rewrite Z.sub_0_r in Hs.
      split; [exact Hf|]. split; [exact Hi|]. split; [exact Hs|].
      split; [rewrite Hl; lia|]. split; [exact Hall|exact Hfull].
  - intros Hu. unfold generateBulkData, targetUserId. split.
    + intros error He. destruct Hu as [->| ->]; cbn; now rewrite He.
    + intros He Hn. destruct Hu as [->| ->]; cbn; now rewrite He, Hn.
Qed.

Lemma bulk_batches_cover_total_witness :
  exists o,
    generateBulkData None one_account (fun _ => true) 1000 300
      = generated "6f1c-alice" o /\
    sum (batches o) = 1000.
Proof.
  assert (HT : 0 <= 1000) by discriminate.
  assert (Hb : 0 < 300) by reflexivity.
  assert (Hok : forall i : Z, (fun _ : Z => true) i = true)
    by reflexivity.
  assert (Hid :
    (exists given, @None string = Some given /\ given <> EmptyString /\
                   "6f1c-alice" = given) \/
    ((@None string = None \/ @None string = Some EmptyString) /\
     listUsers_error one_account = None /\
     exists rest, users one_account = "6f1c-alice" :: rest)).
  { right. split; [now left|]. split; [reflexivity|]. now exists []. }
  destruct (proj1 (bulk_batches_cover_total None one_account (fun _ => true)
                     1000 300 HT Hb Hok) "6f1c-alice" Hid)
    as (o & E & _ & _ & Hs & _).
  exists o. split; [exact E|exact Hs].
Defined.

Lemma bulk_loop_fails ok T b k : 0 < b ->
  (forall i, 0 <= i < k -> ok i = true) -> ok k = false ->
  k < ceil_div T b ->
  forall fuel idx,
    0 <= idx <= k ->
    Z.of_nat fuel = ceil_div T b - idx ->
    let r := bulk_loop ok T b fuel idx (idx * b) in
    failed_at r = Some k /\ inserted r = k * b /\
    batches r = repeat b (Z.to_nat (k - idx)).
Proof.
  intros Hb Hbefore Hk Hlt. induction fuel as [|fuel IH]; intros idx Hidx Hf.
  - lia.
  - cbn [bulk_loop]. destruct (Z.eq_dec idx k) as [->|Hne].
    + rewrite Hk. cbn [batches inserted failed_at].
      rewrite Z.sub_diag. repeat split.
    + rewrite (Hbefore idx) by lia. cbn [batches inserted failed_at].
      assert (Hfull : Z.min b (T - idx * b) = b).
      { pose proof (below_ceil_div (idx + 1) T b Hb ltac:(lia)). lia. }
      rewrite Hfull.
      replace (idx * b + b) with ((idx + 1) * b) by lia.
      destruct (IH (idx + 1) ltac:(lia) ltac:(lia)) as (H1 & H2 & H3).
      split; [exact H1|]. split; [exact H2|]. rewrite H3.
      replace (Z.to_nat (k - idx)) with (S (Z.to_nat (k - (idx + 1))))
        by lia.
      reflexivity.
Qed.

(** X21. When the insertion of batch [k] is the first to fail, the run
    for the user given or found stops there: the [k] earlier batches,
    all of [batchSize] records, stay inserted (nothing is taken back),
    and no later batch is attempted. *)
Theorem bulk_failure_keeps_earlier_batches
  userId listUsers id ok totalCount batchSize k :
  targetUserId userId listUsers = target_user id ->
  0 < batchSize ->
  0 <= k < ceil_div totalCount batchSize ->
  (forall i, 0 <= i < k -> ok i = true) ->
  ok k = false ->
  exists o,
    generateBulkData userId listUsers ok totalCount batchSize
      = generated id o /\
    failed_at o = Some k /\
    inserted o = k * batchSize /\
    batches o = repeat batchSize (Z.to_nat k).
Proof.
  intros Ht Hb [Hk0 Hk] Hbefore Hfail. unfold generateBulkData. rewrite Ht.
  eexists. split; [reflexivity|].
  destruct (bulk_loop_fails ok totalCount batchSize k Hb Hbefore Hfail Hk
              (Z.to_nat (ceil_div totalCount batchSize)) 0)
    as (H1 & H2 & H3).
  - lia.
  - lia.
  - change (0 * batchSize) with 0 in *. rewrite Z.sub_0_r in H3.
    now repeat split.
Qed.

Lemma bulk_failure_keeps_earlier_batches_witness :
  exists o,
    generateBulkData None one_account (fun i => i <? 2) 1000 300
      = generated "6f1c-alice" o /\
    inserted o = 2 * 300.
Proof.
  assert (Hb : 0 < 300) by reflexivity.
  assert (Hk : 0 <= 2 < ceil_div 1000 300)
    by (split; [discriminate|reflexivity]).
  assert (Hbefore : forall i, 0 <= i < 2 -> (fun i => i <? 2) i = true).
  { intros i Hi. apply Z.ltb_lt. lia. }
  destruct (bulk_failure_keeps_earlier_batches None one_account
              "6f1c-alice" (fun i => i <? 2) 1000 300 2
              eq_refl Hb Hk Hbefore eq_refl)
    as (o & E & _ & Hi & _).
  exists o. split; [exact E|exact Hi].
Defined.

(** X22. For the user given or found, the loop runs no turn at all when
    [totalCount] is at least 0 and [batchSize] below 0, or when
    [totalCount] is at most 0 and [batchSize] above 0: nothing is
    inserted and nothing is thrown.  When both are below 0 the loop does
    run: its first batch is attempted. *)
Theorem bulk_without_batches userId listUsers id ok totalCount batchSize :
  targetUserId userId listUsers = target_user id ->
  ((0 <= totalCount /\ batchSize < 0) \/
   (totalCount <= 0 /\ 0 < batchSize) ->
   generateBulkData userId listUsers ok totalCount batchSize
   = generated id {| batches := []; inserted := 0; failed_at := None |})
  /\
  (totalCount < 0 /\ batchSize < 0 ->
   exists o,
     generateBulkData userId listUsers ok totalCount batchSize
       = generated id o /\
     (if ok 0
      then exists rest, batches o = Z.min batchSize totalCount :: rest
      else o = {| batches := []; inserted := 0; failed_at := Some 0 |})).
Proof.
  intros Ht. unfold generateBulkData. rewrite Ht. split.
  - intros H.
    assert (Hc : ceil_div totalCount batchSize <= 0).
    { unfold ceil_div. assert (0 <= - totalCount / batchSize); [|lia].
      destruct H as [[HT Hb]|[HT Hb]].
      - rewrite <- Z.div_opp_opp by lia. apply Z.div_pos; lia.
      - apply Z.div_pos; lia. }
    replace (Z.to_nat (ceil_div totalCount batchSize)) with O by lia.
    reflexivity.
  - intros [HT Hb].
    assert (Hc : 0 < ceil_div totalCount batchSize).
    { unfold ceil_div. assert (- totalCount / batchSize < 0); [|lia].
      rewrite <- Z.div_opp_opp, Z.opp_involutive by lia.
      apply Z.div_lt_upper_bound; lia. }
    eexists. split; [reflexivity|].
    destruct (Z.to_nat (ceil_div totalCount batchSize)) as [|fuel] eqn:E;
      [lia|].
    cbn [bulk_loop]. rewrite Z.sub_0_r.
    destruct (ok 0); cbn [batches]; [eexists|]; reflexivity.
Qed.

Lemma bulk_without_batches_witness :
  generateBulkData None one_account (fun _ => true) 1000 (-5)
  = generated "6f1c-alice"
      {| batches := []; inserted := 0; failed_at := None |}.
Proof.
  assert (H : (0 <= 1000 /\ -5 < 0) \/ (1000 <= 0 /\ 0 < -5)).
  { left. split; [discriminate|reflexivity]. }
  exact (proj1 (bulk_without_batches None one_account "6f1c-alice"
                  (fun _ => true) 1000 (-5) eq_refl) H).
Defined.
